(** * HD44780 character-LCD driver: model of hd44780.c / hd44780.h

    The driver talks to the display only through the callbacks stored in
    its context.  The model keeps that shape: a context is a record of
    callbacks acting on an abstract hardware world [W], every driver
    function is a state-passing action over [W], and [Mock] below is the
    recording double (a bus-trace mock) used to observe the callbacks
    that a call performs.

    Integer conventions: a [uint8_t] is a [Z] in [0, 256) and every
    narrowing conversion of the C code is written out with [u8]; the
    [int] loop counter of the busy wait is a [Z] with the 32-bit
    conversions of the target written out. *)

From Stdlib Require Import ZArith List Bool Lia.
From Equations Require Import Equations.
Import ListNotations.
Local Open Scope Z_scope.

(** ** Status codes and enumerations (hd44780.h) *)

Inductive hd44780_ret_e : Type :=
| HD44780_OK
| HD44780_INV_ARG
| HD44780_TIMEOUT
| HD44780_CUSTOM_CHARS_INV
| HD44780_CHAR_NOT_FOUND.

Inductive hd44780_interface : Type := INTERFACE_4BIT | INTERFACE_8BIT.

Inductive hd44780_ctrl_pin : Type := HD44780_PIN_RS | HD44780_PIN_RW | HD44780_PIN_E.

Inductive hd44780_pin_state : Type := PIN_RESET | PIN_SET.

Inductive hd44780_gpio_dir : Type := GPIO_DIR_IN | GPIO_DIR_OUT.

(** [hd44780_cursor] is a C enum, hence an [int] that may carry any value;
    the enumerators keep their C values. *)
Definition CURSOR_OFF : Z := 0.
Definition CURSOR_ON : Z := 1.
Definition CURSOR_BLINK : Z := 2.

Definition ret_eqb (a b : hd44780_ret_e) : bool :=
  match a, b with
  | HD44780_OK, HD44780_OK
  | HD44780_INV_ARG, HD44780_INV_ARG
  | HD44780_TIMEOUT, HD44780_TIMEOUT
  | HD44780_CUSTOM_CHARS_INV, HD44780_CUSTOM_CHARS_INV
  | HD44780_CHAR_NOT_FOUND, HD44780_CHAR_NOT_FOUND => true
  | _, _ => false
  end.

Definition interface_eqb (a b : hd44780_interface) : bool :=
  match a, b with
  | INTERFACE_4BIT, INTERFACE_4BIT | INTERFACE_8BIT, INTERFACE_8BIT => true
  | _, _ => false
  end.

(** ** Configuration macros (hd44780.h) and register bits (hd44780.c) *)

Definition HD44780_TIMEOUT_MS : Z := 100.
Definition HD44780_TIMEOUT_TICK_MS : Z := 1.
Definition DELAY_INIT_SEQ_LONG_MS : Z := 50.
Definition DELAY_INIT_SEQ_SHORT_MS : Z := 10.

Definition REG_CLEAR : Z := 0x01.
Definition REG_EM : Z := 0x04.
Definition REG_EM_SHIFT_CURSOR : Z := 0x00.
Definition REG_EM_INCREMENT : Z := 0x02.
Definition REG_PWR_AND_CURSOR : Z := 0x08.
Definition REG_CURSOR_BLINK : Z := 0x01.
Definition REG_CURSOR_OFF : Z := 0x00.
Definition REG_CURSOR_ON : Z := 0x02.
Definition REG_DISPLAY_OFF : Z := 0x00.
Definition REG_DISPLAY_ON : Z := 0x04.
Definition REG_INTERFACE : Z := 0x20.
Definition REG_FONT_SIZE_5X8 : Z := 0x00.
Definition REG_TWO_LINES : Z := 0x08.
Definition REG_4_BIT_BUS : Z := 0x00.
Definition REG_8_BIT_BUS : Z := 0x10.
Definition REG_CGRAM_ADDR_SET : Z := 0x40.
Definition REG_DDRAM_ADDR_SET : Z := 0x80.

(** ** Machine integers *)

(** Conversion to [uint8_t]. *)
Definition u8 (x : Z) : Z := x mod 256.

(** Conversion to [unsigned int] and back to [int] (32 bits, two's
    complement), as performed by [timeout_ms -= HD44780_TIMEOUT_TICK_MS]
    where the tick macro is an unsigned constant. *)
Definition to_uint (x : Z) : Z := x mod 2 ^ 32.
Definition to_int (x : Z) : Z :=
  let y := x mod 2 ^ 32 in if y <? 2 ^ 31 then y else y - 2 ^ 32.

(** ** State-passing actions over the hardware world *)

Definition M (W A : Type) : Type := W -> A * W.

Definition mret {W A : Type} (a : A) : M W A := fun w => (a, w).

Definition mbind {W A B : Type} (m : M W A) (k : A -> M W B) : M W B :=
  fun w => let (a, w') := m w in k a w'.

Declare Scope hw_scope.
Delimit Scope hw_scope with hw.
Notation "x <- m ;; k" := (mbind m (fun x => k))
  (at level 61, m at next level, right associativity) : hw_scope.
Notation "m ;; k" := (mbind m (fun _ => k))
  (at level 61, right associativity) : hw_scope.
Local Open Scope hw_scope.

(** ** Driver context (hd44780.h) *)

Record character_mapping : Type := {
  utf_8_code : Z;
  character_bitmap : list Z
}.

(** The C callback [cb_wait_for_busy_flag_clear] receives the context it
    is stored in; the field below is that callback already applied to its
    context (see [install_wait]). *)
Record hd44780_ctx (W : Type) : Type := {
  cb_init_common : M W unit;
  cb_set_bus_direction : hd44780_gpio_dir -> M W unit;
  cb_set_ctrl_pin_state : hd44780_ctrl_pin -> hd44780_pin_state -> M W unit;
  cb_read_bus : M W Z;
  cb_write_bus : Z -> M W unit;
  cb_delay_ms : Z -> M W unit;
  cb_wait_for_busy_flag_clear : M W hd44780_ret_e;
  custom_chars_map : list character_mapping;
  custom_chars_map_len : Z;
  number_of_lines : Z;
  column_width : Z;
  interface : hd44780_interface
}.

Arguments cb_init_common {W} _.
Arguments cb_set_bus_direction {W} _ _.
Arguments cb_set_ctrl_pin_state {W} _ _ _.
Arguments cb_read_bus {W} _.
Arguments cb_write_bus {W} _ _.
Arguments cb_delay_ms {W} _ _.
Arguments cb_wait_for_busy_flag_clear {W} _.
Arguments custom_chars_map {W} _.
Arguments custom_chars_map_len {W} _.
Arguments number_of_lines {W} _.
Arguments column_width {W} _.
Arguments interface {W} _.

Definition install_wait {W : Type}
    (wait : hd44780_ctx W -> M W hd44780_ret_e) (c : hd44780_ctx W) : hd44780_ctx W :=
  {| cb_init_common := cb_init_common c;
     cb_set_bus_direction := cb_set_bus_direction c;
     cb_set_ctrl_pin_state := cb_set_ctrl_pin_state c;
     cb_read_bus := cb_read_bus c;
     cb_write_bus := cb_write_bus c;
     cb_delay_ms := cb_delay_ms c;
     cb_wait_for_busy_flag_clear := wait c;
     custom_chars_map := custom_chars_map c;
     custom_chars_map_len := custom_chars_map_len c;
     number_of_lines := number_of_lines c;
     column_width := column_width c;
     interface := interface c |}.

(** ** The driver (hd44780.c) *)

Section Driver.

Context {W : Type}.
Implicit Types (c : hd44780_ctx W) (w : W).

(** *** Bus transport *)

Definition s_config_bus_as_input c : M W unit :=
  cb_set_bus_direction c GPIO_DIR_IN ;;
  cb_set_ctrl_pin_state c HD44780_PIN_RW PIN_SET.

Definition s_config_bus_as_output c : M W unit :=
  cb_set_ctrl_pin_state c HD44780_PIN_RW PIN_RESET ;;
  cb_set_bus_direction c GPIO_DIR_OUT.

(** The callback returns a [uint8_t]; [u8] records that type. *)
Definition s_read_operation c : M W Z :=
  cb_set_ctrl_pin_state c HD44780_PIN_E PIN_SET ;;
  data <- cb_read_bus c ;;
  cb_set_ctrl_pin_state c HD44780_PIN_E PIN_RESET ;;
  mret (u8 data).

Definition s_read_byte c : M W Z :=
  s_config_bus_as_input c ;;
  data <- s_read_operation c ;;
  if interface_eqb (interface c) INTERFACE_4BIT then
    lower_nibble <- s_read_operation c ;;
    mret (Z.lor data (u8 (Z.shiftr lower_nibble 4)))
  else mret data.

Definition s_read_address c : M W Z :=
  cb_set_ctrl_pin_state c HD44780_PIN_RS PIN_RESET ;;
  s_read_byte c.

Definition s_read_data c : M W Z :=
  cb_set_ctrl_pin_state c HD44780_PIN_RS PIN_SET ;;
  s_read_byte c.

Definition s_write_operation c (data : Z) : M W unit :=
  s_config_bus_as_output c ;;
  cb_set_ctrl_pin_state c HD44780_PIN_E PIN_SET ;;
  cb_write_bus c data ;;
  cb_set_ctrl_pin_state c HD44780_PIN_E PIN_RESET.

Definition s_write_byte c (data : Z) : M W unit :=
  if interface_eqb (interface c) INTERFACE_8BIT then
    s_write_operation c data
  else
    s_write_operation c data ;;
    s_write_operation c (u8 (Z.shiftl data 4)).

(** *** Busy flag *)

Definition hd44780_is_busy c : M W bool :=
  a <- s_read_address c ;;
  mret (negb (Z.land a 0x80 =? 0)).

Definition int_sub_uint (t u : Z) : Z := to_int (to_uint t - to_uint u).

(** The polling loop of [s_wait_till_busy]: [timeout_ms] is the [int]
    counter, and the loop guard is [0 <= timeout_ms]. *)
Equations? s_wait_loop c (timeout_ms : Z) (w : W) : hd44780_ret_e * W
  by wf (Z.to_nat (timeout_ms + 1)) lt :=
  s_wait_loop c timeout_ms w with Z_le_gt_dec 0 timeout_ms => {
    | right _ := (HD44780_TIMEOUT, w);
    | left _ with hd44780_is_busy c w => {
        | (false, w1) := (HD44780_OK, w1);
        | (true, w1) :=
            s_wait_loop c (int_sub_uint timeout_ms HD44780_TIMEOUT_TICK_MS)
              (snd (cb_delay_ms c (u8 HD44780_TIMEOUT_TICK_MS) w1)) } }.
Proof.
  match goal with H : 0 <= ?x |- _ => revert H; generalize x end.
  clear. intros t Ht.
  unfold int_sub_uint, to_int, to_uint, HD44780_TIMEOUT_TICK_MS.
  change (2 ^ 32) with 4294967296. change (2 ^ 31) with 2147483648.
  change (1 mod 4294967296) with 1.
  pose proof (Z.mod_pos_bound t 4294967296 eq_refl) as H1.
  pose proof (Z.mod_le t 4294967296 Ht eq_refl) as H2.
  destruct (Z.eq_dec (t mod 4294967296) 0) as [E | E].
  - rewrite E. change ((0 - 1) mod 4294967296) with 4294967295.
    change (4294967295 <? 2147483648) with false. cbv iota. lia.
  - rewrite (Z.mod_small (t mod 4294967296 - 1) 4294967296) by lia.
    destruct (Z.ltb_spec (t mod 4294967296 - 1) 2147483648); lia.
Qed.

Definition s_wait_till_busy c : M W hd44780_ret_e :=
  s_wait_loop c HD44780_TIMEOUT_MS.

(** *** Command / data framing *)

Definition s_write_instruction c (instruction : Z) : M W hd44780_ret_e :=
  ret <- cb_wait_for_busy_flag_clear c ;;
  if ret_eqb HD44780_OK ret then
    cb_set_ctrl_pin_state c HD44780_PIN_RS PIN_RESET ;;
    s_write_byte c instruction ;;
    mret ret
  else mret ret.

Definition s_write_data c (data : Z) : M W hd44780_ret_e :=
  ret <- cb_wait_for_busy_flag_clear c ;;
  if ret_eqb HD44780_OK ret then
    cb_set_ctrl_pin_state c HD44780_PIN_RS PIN_SET ;;
    s_write_byte c data ;;
    mret ret
  else mret ret.

Definition s_set_ddram_addr c (address : Z) : M W hd44780_ret_e :=
  s_write_instruction c (u8 (Z.lor REG_DDRAM_ADDR_SET address)).

Definition s_set_cgram_addr c (address : Z) : M W hd44780_ret_e :=
  s_write_instruction c (u8 (Z.lor REG_CGRAM_ADDR_SET address)).

Definition s_set_char_addr c (index : Z) : M W hd44780_ret_e :=
  s_set_cgram_addr c (u8 (index * 8)).

(** *** Custom characters *)

Definition hd44780_disp_char c (index : Z) : M W hd44780_ret_e :=
  s_write_data c index.

(** [for (i = 0; (HD44780_OK == ret) && (i < 8); i++)]: [n] counts the
    iterations that the bound [8] still allows. *)
Fixpoint def_char_loop c (pattern : list Z) (n : nat) (i : Z) (ret : hd44780_ret_e)
  : M W hd44780_ret_e :=
  match n with
  | O => mret ret
  | S n' =>
      if ret_eqb HD44780_OK ret && (i <? 8) then
        r <- s_write_data c (nth (Z.to_nat i) pattern 0) ;;
        def_char_loop c pattern n' (u8 (i + 1)) r
      else mret ret
  end.

Definition hd44780_def_char c (index : Z) (pattern : list Z) : M W hd44780_ret_e :=
  ret <- s_set_char_addr c index ;;
  def_char_loop c pattern 8 0 ret.

(** [for (i = 0; (i < len) && (ret == HD44780_OK); i++)], entered only
    with [len <= 8]. *)
Fixpoint upload_loop c (n : nat) (i : Z) (ret : hd44780_ret_e) : M W hd44780_ret_e :=
  match n with
  | O => mret ret
  | S n' =>
      if (i <? custom_chars_map_len c) && ret_eqb ret HD44780_OK then
        r <- hd44780_def_char c i
               (character_bitmap
                  (nth (Z.to_nat i) (custom_chars_map c)
                     {| utf_8_code := 0; character_bitmap := [] |})) ;;
        upload_loop c n' (u8 (i + 1)) r
      else mret ret
  end.

Definition s_upload_custom_chars c : M W hd44780_ret_e :=
  if 8 <? custom_chars_map_len c then mret HD44780_CUSTOM_CHARS_INV
  else upload_loop c (Z.to_nat (custom_chars_map_len c)) 0 HD44780_OK.

(** [for (i = 0; i < len; i++)] with the early [break]; the result pairs
    the status with the value left in [*index] ([index0] when the scan
    finds nothing). *)
Fixpoint find_loop c (utf_8_code0 : Z) (n : nat) (i : Z) (index0 : Z)
  : hd44780_ret_e * Z :=
  match n with
  | O => (HD44780_CHAR_NOT_FOUND, index0)
  | S n' =>
      if i <? custom_chars_map_len c then
        if utf_8_code0 =?
           utf_8_code (nth (Z.to_nat i) (custom_chars_map c)
                         {| utf_8_code := 0; character_bitmap := [] |})
        then (HD44780_OK, i)
        else find_loop c utf_8_code0 n' (u8 (i + 1)) index0
      else (HD44780_CHAR_NOT_FOUND, index0)
  end.

Definition s_find_character_by_code c (utf_8_code0 : Z) (index0 : Z)
  : hd44780_ret_e * Z :=
  find_loop c utf_8_code0 (Z.to_nat (custom_chars_map_len c)) 0 index0.

(** *** Public functions *)

Definition hd44780_clear c : M W hd44780_ret_e :=
  s_write_instruction c REG_CLEAR.

(** [text] is the memory that the [const char*] points to, one [char]
    (unsigned, as on the ARM target of the example) per element; past
    the end of the list the memory reads as [0].  The leading byte of a
    multi-byte sequence fixes how many bytes follow it and how the code
    point is assembled from them. *)
Definition utf8_cont_len (b : Z) : nat :=
  if b <=? 0xDF then 1%nat else if b <=? 0xEF then 2%nat else 3%nat.

Definition utf8_codepoint (b : Z) (t : list Z) : Z :=
  if b <=? 0xDF then
    Z.lor (Z.shiftl (Z.land b 0x1F) 6) (Z.land (nth 0 t 0) 0x3F)
  else if b <=? 0xEF then
    Z.lor (Z.lor (Z.shiftl (Z.land b 0x0F) 12)
                 (Z.shiftl (Z.land (nth 0 t 0) 0x3F) 6))
          (Z.land (nth 1 t 0) 0x3F)
  else
    Z.lor (Z.lor (Z.lor (Z.shiftl (Z.land b 0x07) 18)
                        (Z.shiftl (Z.land (nth 0 t 0) 0x3F) 12))
                 (Z.shiftl (Z.land (nth 1 t 0) 0x3F) 6))
          (Z.land (nth 2 t 0) 0x3F).

(** The body of [if (HD44780_OK == ret)] after a successful lookup; the
    statuses of [hd44780_disp_char] and [s_set_ddram_addr] are dropped
    there.  [address] is a [uint32_t], narrowed to [uint8_t] when it is
    passed on. *)
Definition write_custom_char c (custom_char_index : Z) : M W unit :=
  address <- s_read_address c ;;
  hd44780_disp_char c custom_char_index ;;
  s_set_ddram_addr c (u8 (address + 1)) ;;
  mret tt.

Equations? write_text_loop c (ret : hd44780_ret_e) (text : list Z) (w : W)
  : hd44780_ret_e * W by wf (length text) lt :=
  write_text_loop c ret [] w := (ret, w);
  write_text_loop c ret (b :: t) w :=
    if ret_eqb HD44780_OK ret && negb (b =? 0) then
      if b <=? 0x7f then
        let (r, w1) := s_write_data c b w in
        write_text_loop c r t w1
      else
        let (r, custom_char_index) :=
          s_find_character_by_code c (utf8_codepoint b t) 0 in
        write_text_loop c r (skipn (utf8_cont_len b) t)
          (if ret_eqb HD44780_OK r
           then snd (write_custom_char c custom_char_index w) else w)
    else (ret, w).
Proof.
  all: simpl; try rewrite length_skipn; lia.
Qed.

Definition hd44780_write_text c (text : list Z) : M W hd44780_ret_e :=
  write_text_loop c HD44780_OK text.

Definition hd44780_set_pos c (row column : Z) : M W hd44780_ret_e :=
  if (column_width c <=? column) || (number_of_lines c <=? row) then
    mret HD44780_INV_ARG
  else
    let address := column in
    let address :=
      if row =? 1 then u8 (address + 0x40)
      else if row =? 2 then u8 (address + column_width c)
      else if row =? 3 then u8 (u8 (address + 0x40) + column_width c)
      else address in
    s_set_ddram_addr c address.

Definition hd44780_cursor_cfg c (cursor_cfg : Z) : M W hd44780_ret_e :=
  let instruction := Z.lor REG_PWR_AND_CURSOR REG_DISPLAY_ON in
  if cursor_cfg =? CURSOR_OFF then
    s_write_instruction c (u8 (Z.lor instruction REG_CURSOR_OFF))
  else if cursor_cfg =? CURSOR_ON then
    s_write_instruction c (u8 (Z.lor instruction REG_CURSOR_ON))
  else if cursor_cfg =? CURSOR_BLINK then
    s_write_instruction c (u8 (Z.lor instruction (Z.lor REG_CURSOR_ON REG_CURSOR_BLINK)))
  else mret HD44780_INV_ARG.

Definition hd44780_display_off c : M W hd44780_ret_e :=
  s_write_instruction c (Z.lor REG_PWR_AND_CURSOR REG_DISPLAY_OFF).

(** [for (i = 0U; i < 2U; i++)] of the initialisation sequence. *)
Fixpoint init_seq_short c (n : nat) : M W unit :=
  match n with
  | O => mret tt
  | S n' =>
      s_write_operation c (Z.lor REG_INTERFACE REG_8_BIT_BUS) ;;
      cb_delay_ms c DELAY_INIT_SEQ_SHORT_MS ;;
      init_seq_short c n'
  end.

(** The statements of [hd44780_init] that follow the interface
    selection, up to the [exit] label. *)
Definition init_configure c : M W hd44780_ret_e :=
  ret <- hd44780_display_off c ;;
  if negb (ret_eqb HD44780_OK ret) then mret ret else
  ret <- hd44780_clear c ;;
  if negb (ret_eqb HD44780_OK ret) then mret ret else
  ret <- s_write_instruction c
           (Z.lor (Z.lor REG_EM REG_EM_SHIFT_CURSOR) REG_EM_INCREMENT) ;;
  if negb (ret_eqb HD44780_OK ret) then mret ret else
  ret <- hd44780_cursor_cfg c CURSOR_OFF ;;
  if negb (ret_eqb HD44780_OK ret) then mret ret else
  s_upload_custom_chars c.

Definition hd44780_init c : M W hd44780_ret_e :=
  cb_init_common c ;;
  cb_set_ctrl_pin_state c HD44780_PIN_RS PIN_RESET ;;
  s_write_operation c (Z.lor REG_INTERFACE REG_8_BIT_BUS) ;;
  cb_delay_ms c DELAY_INIT_SEQ_LONG_MS ;;
  init_seq_short c 2 ;;
  if interface_eqb (interface c) INTERFACE_8BIT then
    s_write_operation c
      (Z.lor (Z.lor (Z.lor REG_INTERFACE REG_FONT_SIZE_5X8) REG_TWO_LINES)
             REG_8_BIT_BUS) ;;
    init_configure c
  else
    s_write_operation c (Z.lor REG_INTERFACE REG_4_BIT_BUS) ;;
    cb_delay_ms c DELAY_INIT_SEQ_SHORT_MS ;;
    ret <- s_write_instruction c
             (Z.lor (Z.lor (Z.lor REG_INTERFACE REG_FONT_SIZE_5X8) REG_TWO_LINES)
                    REG_4_BIT_BUS) ;;
    if negb (ret_eqb HD44780_OK ret) then mret ret else
    init_configure c.

End Driver.

(** ** A recording double of the hardware

    Every callback logs the call it receives, in order.  Bus reads are
    answered from [bus_in] and busy waits from [busy_in]; an exhausted
    queue answers [0], respectively [HD44780_OK]. *)

Module Mock.

Inductive event : Type :=
| InitCommon
| SetBusDirection (d : hd44780_gpio_dir)
| SetCtrlPin (p : hd44780_ctrl_pin) (s : hd44780_pin_state)
| ReadBus (v : Z)
| WriteBus (v : Z)
| DelayMs (t : Z)
| WaitBusy (r : hd44780_ret_e).

Record hw : Type := {
  trace : list event;
  bus_in : list Z;
  busy_in : list hd44780_ret_e
}.

Definition log (e : event) : M hw unit :=
  fun w => (tt, {| trace := trace w ++ [e]; bus_in := bus_in w; busy_in := busy_in w |}).

Definition read_bus : M hw Z :=
  fun w =>
    let v := hd 0 (bus_in w) in
    (v, {| trace := trace w ++ [ReadBus v]; bus_in := tl (bus_in w); busy_in := busy_in w |}).

Definition wait_for_busy_flag_clear : M hw hd44780_ret_e :=
  fun w =>
    let r := hd HD44780_OK (busy_in w) in
    (r, {| trace := trace w ++ [WaitBusy r]; bus_in := bus_in w; busy_in := tl (busy_in w) |}).

Definition ctx (map : list character_mapping) (len lines width : Z)
    (iface : hd44780_interface) : hd44780_ctx hw :=
  {| cb_init_common := log InitCommon;
     cb_set_bus_direction := fun d => log (SetBusDirection d);
     cb_set_ctrl_pin_state := fun p s => log (SetCtrlPin p s);
     cb_read_bus := read_bus;
     cb_write_bus := fun v => log (WriteBus v);
     cb_delay_ms := fun t => log (DelayMs t);
     cb_wait_for_busy_flag_clear := wait_for_busy_flag_clear;
     custom_chars_map := map;
     custom_chars_map_len := len;
     number_of_lines := lines;
     column_width := width;
     interface := iface |}.

(** The same double with the polling wait of the driver installed as
    the busy-wait callback. *)
Definition polling_ctx (map : list character_mapping) (len lines width : Z)
    (iface : hd44780_interface) : hd44780_ctx hw :=
  install_wait s_wait_till_busy (ctx map len lines width iface).

Definition power_on (reads : list Z) (waits : list hd44780_ret_e) : hw :=
  {| trace := []; bus_in := reads; busy_in := waits |}.

End Mock.

(** * Vocabulary of the specification

    The notions that the statements below are phrased with; none of
    them is part of the driver. *)

Section Vocabulary.

Context {W : Type}.
Implicit Types (c : hd44780_ctx W) (w : W).

(** ** Addressing *)

(** The row-offset table of the specification: rows 0 to 3 start at
    [0x00], [0x40], [column_width] and [0x40 + column_width]; the source
    adds nothing for any other row. *)
Definition spec_row_offset c (row : Z) : Z :=
  if row =? 1 then 0x40
  else if row =? 2 then column_width c
  else if row =? 3 then 0x40 + column_width c
  else 0x00.

(** The address that a DDRAM-address-set instruction carries: bit 7 is
    the opcode [REG_DDRAM_ADDR_SET], the seven bits below it are the
    address. *)
Definition ddram_address (instruction : Z) : Z := Z.land instruction 0x7F.

(** ** Sequences of framed operations *)

(** Framed operations issued in order: the sequence goes on while the
    last status is [HD44780_OK], and its result is the last status
    obtained. *)
Fixpoint framed_continue (ret : hd44780_ret_e) (ops : list (M W hd44780_ret_e))
  : M W hd44780_ret_e :=
  match ops with
  | [] => mret ret
  | op :: ops' =>
      if ret_eqb HD44780_OK ret then r <- op ;; framed_continue r ops'
      else mret ret
  end.

Definition framed_seq (first : M W hd44780_ret_e) (rest : list (M W hd44780_ret_e))
  : M W hd44780_ret_e :=
  r <- first ;; framed_continue r rest.

Definition pattern_writes c (pattern : list Z) (i n : nat) : list (M W hd44780_ret_e) :=
  map (fun j => s_write_data c (nth j pattern 0)) (seq i n).

(** The contract of [cb_wait_for_busy_flag_clear] in hd44780.h: it
    returns [HD44780_OK] or [HD44780_TIMEOUT]. *)
Definition wait_contract c : Prop :=
  forall w, fst (cb_wait_for_busy_flag_clear c w) = HD44780_OK \/
            fst (cb_wait_for_busy_flag_clear c w) = HD44780_TIMEOUT.

Definition ok_or_timeout (r : hd44780_ret_e) : Prop :=
  r = HD44780_OK \/ r = HD44780_TIMEOUT.

(** [r] is a status handed out by the busy-wait callback of [c]. *)
Definition wait_status c (r : hd44780_ret_e) : Prop :=
  exists w0, r = fst (cb_wait_for_busy_flag_clear c w0).

(** ** Glyph lookup *)

(** The glyph map as the specification sees it: the first
    [custom_chars_map_len] entries, scanned in order, first match wins. *)
Fixpoint first_match (code : Z) (m : list character_mapping) (i : Z) : option Z :=
  match m with
  | [] => None
  | e :: m' =>
      if code =? utf_8_code e then Some i else first_match code m' (i + 1)
  end.

Definition glyph_slot c (code : Z) : option Z :=
  first_match code
    (firstn (Z.to_nat (custom_chars_map_len c)) (custom_chars_map c)) 0.

(** The length field is a [uint8_t] and does not exceed the array it
    describes. *)
Definition ctx_wf c : Prop :=
  0 <= custom_chars_map_len c <= 255 /\
  (Z.to_nat (custom_chars_map_len c) <= length (custom_chars_map c))%nat.

(** ** Text *)

(** A character of the text as the loop consumes it: a leading byte
    other than the terminator, alone when it is at most [0x7f], and
    otherwise followed by as many bytes as it announces. *)
Definition complete_char (bs : list Z) : Prop :=
  match bs with
  | [] => False
  | b :: conts =>
      0 < b /\
      if b <=? 0x7f then conts = [] else length conts = utf8_cont_len b
  end.

(** ** Initialisation *)

(** The framed instructions of [hd44780_init] that precede the glyph
    upload: function set (4-bit interface only), display off, clear,
    entry mode, cursor off. *)
Definition init_opcodes c : list Z :=
  (if interface_eqb (interface c) INTERFACE_8BIT then [] else [0x28])
  ++ [0x08; 0x01; 0x06; 0x0C].

(** [hd44780_init] up to, and without, the glyph upload: the unframed
    power-on handshake followed by the framed instructions
    [init_opcodes], which stop at the first failure. *)
Definition init_before_upload c : M W hd44780_ret_e :=
  cb_init_common c ;;
  cb_set_ctrl_pin_state c HD44780_PIN_RS PIN_RESET ;;
  s_write_operation c 0x30 ;;
  cb_delay_ms c DELAY_INIT_SEQ_LONG_MS ;;
  s_write_operation c 0x30 ;;
  cb_delay_ms c DELAY_INIT_SEQ_SHORT_MS ;;
  s_write_operation c 0x30 ;;
  cb_delay_ms c DELAY_INIT_SEQ_SHORT_MS ;;
  (if interface_eqb (interface c) INTERFACE_8BIT then
     s_write_operation c 0x38
   else
     s_write_operation c 0x20 ;;
     cb_delay_ms c DELAY_INIT_SEQ_SHORT_MS) ;;
  framed_continue HD44780_OK (map (s_write_instruction c) (init_opcodes c)).

(** ** Busy wait *)

(** One poll is one [hd44780_is_busy]; the polls that see the flag set
    are each followed by one tick of [HD44780_TIMEOUT_TICK_MS].
    [after_polls c k w] is the world after [k] such rounds and
    [busy_for c k w] says that the first [k] polls all see the flag set. *)
Definition poll_round c w : W :=
  snd (cb_delay_ms c HD44780_TIMEOUT_TICK_MS (snd (hd44780_is_busy c w))).

Fixpoint after_polls c (k : nat) w : W :=
  match k with
  | O => w
  | S k' => after_polls c k' (poll_round c w)
  end.

Fixpoint busy_for c (k : nat) w : bool :=
  match k with
  | O => true
  | S k' => fst (hd44780_is_busy c w) && busy_for c k' (poll_round c w)
  end.

End Vocabulary.

(** ** Bus transport *)

(** The byte that the specification expects from a 4-bit read: the high
    nibble of the first read on top, the high nibble of the second read
    shifted down below it. *)
Definition spec_read_byte_4bit (first second : Z) : Z :=
  Z.lor (Z.land first 0xF0) (Z.shiftr second 4).

(** ** Contexts and trace measures for runs on the recording double *)

Module MockRuns.
Import Mock.

(** The glyph map of the example application: U+00E8, U+2191, U+1F34C. *)
Definition mappings : list character_mapping :=
  [ {| utf_8_code := 0xE8;
       character_bitmap := [0x08; 0x04; 0x0E; 0x11; 0x1F; 0x10; 0x0E; 0x00] |};
    {| utf_8_code := 0x2191;
       character_bitmap := [0x00; 0x04; 0x0E; 0x15; 0x04; 0x04; 0x04; 0x00] |};
    {| utf_8_code := 0x1F34C;
       character_bitmap := [0x08; 0x06; 0x03; 0x03; 0x03; 0x06; 0x0C; 0x10] |} ].

Definition lcd (iface : hd44780_interface) : hd44780_ctx hw :=
  ctx mappings 3 4 20 iface.

(** A context whose length field announces nine glyphs. *)
Definition lcd9 (iface : hd44780_interface) : hd44780_ctx hw :=
  ctx (mappings ++ mappings ++ mappings) 9 4 20 iface.

Definition reads (t : list event) : nat :=
  length (filter (fun e => match e with ReadBus _ => true | _ => false end) t).

Definition delays (t : list event) : nat :=
  length (filter (fun e => match e with DelayMs _ => true | _ => false end) t).

(** The events of one enable-pulsed bus write, and of one logical byte
    on either bus width. *)
Definition pulse_events (v : Z) : list event :=
  [SetCtrlPin HD44780_PIN_RW PIN_RESET; SetBusDirection GPIO_DIR_OUT;
   SetCtrlPin HD44780_PIN_E PIN_SET; WriteBus v;
   SetCtrlPin HD44780_PIN_E PIN_RESET].

Definition write_byte_events (iface : hd44780_interface) (b : Z) : list event :=
  match iface with
  | INTERFACE_8BIT => pulse_events b
  | INTERFACE_4BIT => pulse_events b ++ pulse_events (u8 (Z.shiftl b 4))
  end.

Definition rs_raised (t : list event) : bool :=
  existsb (fun e => match e with SetCtrlPin HD44780_PIN_RS PIN_SET => true | _ => false end) t.

End MockRuns.

(** * Vocabulary for the rest of the driver *)

(** ** Text *)

(** The UTF-8 encoding of a code point (RFC 3629): one byte below
    [0x80], then two, three and four bytes. *)
Definition utf8_encode (cp : Z) : list Z :=
  if cp <? 0x80 then [cp]
  else if cp <? 0x800 then
    [Z.lor 0xC0 (Z.shiftr cp 6); Z.lor 0x80 (Z.land cp 0x3F)]
  else if cp <? 0x10000 then
    [Z.lor 0xE0 (Z.shiftr cp 12);
     Z.lor 0x80 (Z.land (Z.shiftr cp 6) 0x3F);
     Z.lor 0x80 (Z.land cp 0x3F)]
  else
    [Z.lor 0xF0 (Z.shiftr cp 18);
     Z.lor 0x80 (Z.land (Z.shiftr cp 12) 0x3F);
     Z.lor 0x80 (Z.land (Z.shiftr cp 6) 0x3F);
     Z.lor 0x80 (Z.land cp 0x3F)].

(** A byte that the loop writes as it is. *)
Definition ascii_byte (b : Z) : Prop := 0 < b <= 0x7f.

(** ** Glyph upload *)

(** The uploads of the map entries [i .. i + n - 1], each to the slot
    of its index. *)
Definition glyph_uploads {W : Type} (c : hd44780_ctx W) (i n : nat)
  : list (M W hd44780_ret_e) :=
  map (fun j =>
         hd44780_def_char c (Z.of_nat j)
           (character_bitmap
              (nth j (custom_chars_map c)
                 {| utf_8_code := 0; character_bitmap := [] |})))
      (seq i n).

(** ** Statuses *)

Definition ok_timeout_or (extra : hd44780_ret_e) (r : hd44780_ret_e) : Prop :=
  r = HD44780_OK \/ r = HD44780_TIMEOUT \/ r = extra.

(** ** The bus protocol, read off a trace of the recording double *)

Module Protocol.
Import Mock.

(** The double with any busy-wait callback: [Mock.ctx] is [bus_ctx] with
    the answering queue, [Mock.polling_ctx] is [bus_ctx] with the polling
    wait. *)
Definition bus_ctx (wait : M hw hd44780_ret_e) (map : list character_mapping)
    (len lines width : Z) (iface : hd44780_interface) : hd44780_ctx hw :=
  {| cb_init_common := log InitCommon;
     cb_set_bus_direction := fun d => log (SetBusDirection d);
     cb_set_ctrl_pin_state := fun p s => log (SetCtrlPin p s);
     cb_read_bus := read_bus;
     cb_write_bus := fun v => log (WriteBus v);
     cb_delay_ms := fun t => log (DelayMs t);
     cb_wait_for_busy_flag_clear := wait;
     custom_chars_map := map;
     custom_chars_map_len := len;
     number_of_lines := lines;
     column_width := width;
     interface := iface |}.

(** The lines as the callbacks left them, and whether every step so far
    was sound. *)
Record lines : Type := {
  bus_dir : hd44780_gpio_dir;
  rw : hd44780_pin_state;
  enable : hd44780_pin_state;
  sound : bool
}.

Definition is_out (d : hd44780_gpio_dir) : bool :=
  match d with GPIO_DIR_OUT => true | GPIO_DIR_IN => false end.

Definition is_set (p : hd44780_pin_state) : bool :=
  match p with PIN_SET => true | PIN_RESET => false end.

(** One callback.  RS, RW and the bus direction may change only while E
    is low; the bus is never an output while RW is high; a bus write
    needs the bus as output, RW low and E high; a bus read needs the bus
    as input, RW high and E high. *)
Definition step (s : lines) (e : event) : lines :=
  match e with
  | SetBusDirection d =>
      {| bus_dir := d; rw := rw s; enable := enable s;
         sound := sound s && negb (is_set (enable s))
                  && negb (is_out d && is_set (rw s)) |}
  | SetCtrlPin HD44780_PIN_RW p =>
      {| bus_dir := bus_dir s; rw := p; enable := enable s;
         sound := sound s && negb (is_set (enable s))
                  && negb (is_out (bus_dir s) && is_set p) |}
  | SetCtrlPin HD44780_PIN_RS _ =>
      {| bus_dir := bus_dir s; rw := rw s; enable := enable s;
         sound := sound s && negb (is_set (enable s)) |}
  | SetCtrlPin HD44780_PIN_E p =>
      {| bus_dir := bus_dir s; rw := rw s; enable := p; sound := sound s |}
  | WriteBus _ =>
      {| bus_dir := bus_dir s; rw := rw s; enable := enable s;
         sound := sound s && is_out (bus_dir s) && negb (is_set (rw s))
                  && is_set (enable s) |}
  | ReadBus _ =>
      {| bus_dir := bus_dir s; rw := rw s; enable := enable s;
         sound := sound s && negb (is_out (bus_dir s)) && is_set (rw s)
                  && is_set (enable s) |}
  | InitCommon | DelayMs _ | WaitBusy _ => s
  end.

(** Before the first callback: bus as input, RW and E low. *)
Definition idle : lines :=
  {| bus_dir := GPIO_DIR_IN; rw := PIN_RESET; enable := PIN_RESET; sound := true |}.

Definition lines_after (t : list event) : lines := fold_left step t idle.

Definition good (s : lines) : Prop :=
  sound s && negb (is_set (enable s)) = true.

(** Every callback so far was sound and E is low again. *)
Definition disciplined (w : hw) : Prop :=
  sound (lines_after (trace w)) && negb (is_set (enable (lines_after (trace w))))
  = true.

Definition keeps {A : Type} (m : M hw A) : Prop :=
  forall w, disciplined w -> disciplined (snd (m w)).

(** All entry points of the driver keep the discipline. *)
Definition driver_disciplined (c : hd44780_ctx hw) : Prop :=
  keeps (hd44780_init c) /\
  keeps (hd44780_clear c) /\
  (forall text, keeps (hd44780_write_text c text)) /\
  (forall row column, keeps (hd44780_set_pos c row column)) /\
  (forall cursor_cfg, keeps (hd44780_cursor_cfg c cursor_cfg)) /\
  keeps (hd44780_display_off c) /\
  (forall index pattern, keeps (hd44780_def_char c index pattern)) /\
  (forall index, keeps (hd44780_disp_char c index)) /\
  keeps (hd44780_is_busy c) /\
  keeps (s_read_address c) /\
  keeps (s_read_data c) /\
  keeps (s_wait_till_busy c).

(** The bytes written on the bus, and the total of the delays asked
    for, in trace order. *)
Definition bus_writes (t : list event) : list Z :=
  flat_map (fun e => match e with WriteBus v => [v] | _ => [] end) t.

Definition delay_total (t : list event) : Z :=
  fold_right (fun e acc => match e with DelayMs d => d + acc | _ => acc end) 0 t.

Definition polls (t : list event) : nat :=
  length (filter (fun e => match e with
                           | SetCtrlPin HD44780_PIN_RS PIN_RESET => true
                           | _ => false
                           end) t).

End Protocol.

(** * Properties *)

(** ** Arithmetic of the narrowing conversions *)

Lemma u8_land (x : Z) : u8 x = Z.land x (Z.ones 8).
Proof. unfold u8. rewrite Z.land_ones by lia. reflexivity. Qed.

Lemma u8_idem (x : Z) : u8 (u8 x) = u8 x.
Proof. unfold u8. apply Z.mod_mod. lia. Qed.

Lemma u8_range (x : Z) : 0 <= u8 x < 256.
Proof. unfold u8. apply Z.mod_pos_bound. lia. Qed.

Lemma u8_small (x : Z) : 0 <= x < 256 -> u8 x = x.
Proof. unfold u8. apply Z.mod_small. Qed.

Lemma u8_add_l (x y : Z) : u8 (u8 x + y) = u8 (x + y).
Proof. unfold u8. apply Zplus_mod_idemp_l. Qed.

(** Narrowing the operand before it is or-ed into an instruction byte
    does not change the byte that is framed. *)
Lemma u8_lor_absorb (k x : Z) : u8 (Z.lor k (u8 x)) = u8 (Z.lor k x).
Proof.
  rewrite !u8_land, !Z.land_lor_distr_l, <- Z.land_assoc, Z.land_diag.
  reflexivity.
Qed.

Lemma u8_lor_small (k x : Z) : 0 <= k < 256 -> u8 (Z.lor k (u8 x)) = Z.lor k (u8 x).
Proof.
  intros Hk. rewrite !u8_land, Z.land_lor_distr_l, <- Z.land_assoc, Z.land_diag.
  rewrite <- (u8_land k), (u8_small k Hk). reflexivity.
Qed.

Lemma ret_eqb_eq (a b : hd44780_ret_e) : ret_eqb a b = true <-> a = b.
Proof. destruct a, b; simpl; split; intros H; try reflexivity; discriminate H. Qed.

Lemma ret_eqb_refl (a : hd44780_ret_e) : ret_eqb a a = true.
Proof. destruct a; reflexivity. Qed.

Lemma ret_eqb_OK_neq (r : hd44780_ret_e) : r <> HD44780_OK -> ret_eqb HD44780_OK r = false.
Proof. destruct r; intros H; try reflexivity; contradiction H; reflexivity. Qed.

Section DriverFacts.

Context {W : Type}.
Implicit Types (c : hd44780_ctx W) (w : W).

(** ** Loop bounds

    The counting loops of the driver are written with the number of
    iterations that their bound allows.  The lemmas below show that the
    count is never what ends a loop: with any larger count the loops
    compute the same, their own guard stops them first. *)

Lemma def_char_loop_bound c (pattern : list Z) (n i k : nat) (r : hd44780_ret_e) w :
  (i + n = 8)%nat ->
  def_char_loop c pattern (n + k) (Z.of_nat i) r w =
  def_char_loop c pattern n (Z.of_nat i) r w.
Proof.
  revert i r w. induction n as [| n IH]; intros i r w Hin.
  - destruct k as [| k]; [reflexivity |]. cbn [Nat.add def_char_loop].
    destruct (Z.ltb_spec (Z.of_nat i) 8) as [H | _]; [lia |].
    rewrite andb_false_r. reflexivity.
  - cbn [Nat.add def_char_loop].
    destruct (ret_eqb HD44780_OK r && (Z.of_nat i <? 8)); [| reflexivity].
    unfold mbind. destruct (s_write_data c _ w) as [r1 w1].
    replace (u8 (Z.of_nat i + 1)) with (Z.of_nat (S i)) by (rewrite u8_small; lia).
    apply IH. lia.
Qed.

Lemma upload_loop_bound c (n i k : nat) (r : hd44780_ret_e) w :
  0 <= custom_chars_map_len c <= 255 ->
  (i + n = Z.to_nat (custom_chars_map_len c))%nat ->
  upload_loop c (n + k) (Z.of_nat i) r w = upload_loop c n (Z.of_nat i) r w.
Proof.
  intros Hlen. revert i r w. induction n as [| n IH]; intros i r w Hin.
  - destruct k as [| k]; [reflexivity |]. cbn [Nat.add upload_loop].
    destruct (Z.ltb_spec (Z.of_nat i) (custom_chars_map_len c)) as [H | _]; [lia |].
    reflexivity.
  - cbn [Nat.add upload_loop].
    destruct ((Z.of_nat i <? custom_chars_map_len c) && ret_eqb r HD44780_OK);
      [| reflexivity].
    unfold mbind. destruct (hd44780_def_char c _ _ w) as [r1 w1].
    replace (u8 (Z.of_nat i + 1)) with (Z.of_nat (S i)) by (rewrite u8_small; lia).
    apply IH. lia.
Qed.

Lemma find_loop_bound c (code : Z) (n i k : nat) (index0 : Z) :
  0 <= custom_chars_map_len c <= 255 ->
  (i + n = Z.to_nat (custom_chars_map_len c))%nat ->
  find_loop c code (n + k) (Z.of_nat i) index0 =
  find_loop c code n (Z.of_nat i) index0.
Proof.
  intros Hlen. revert i. induction n as [| n IH]; intros i Hin.
  - destruct k as [| k]; [reflexivity |]. cbn [Nat.add find_loop].
    destruct (Z.ltb_spec (Z.of_nat i) (custom_chars_map_len c)) as [H | _]; [lia |].
    reflexivity.
  - cbn [Nat.add find_loop].
    destruct (Z.of_nat i <? custom_chars_map_len c); [| reflexivity].
    destruct (code =? _); [reflexivity |].
    replace (u8 (Z.of_nat i + 1)) with (Z.of_nat (S i)) by (rewrite u8_small; lia).
    apply IH. lia.
Qed.

(** ** Framing *)

Lemma s_set_ddram_addr_u8 c (a : Z) w :
  s_set_ddram_addr c (u8 a) w = s_set_ddram_addr c a w.
Proof. unfold s_set_ddram_addr. rewrite u8_lor_absorb. reflexivity. Qed.

Lemma s_write_instruction_status c (b : Z) w :
  fst (s_write_instruction c b w) = fst (cb_wait_for_busy_flag_clear c w).
Proof.
  unfold s_write_instruction, mbind, mret.
  destruct (cb_wait_for_busy_flag_clear c w) as [r w1].
  destruct r; simpl; try reflexivity.
  destruct (cb_set_ctrl_pin_state c HD44780_PIN_RS PIN_RESET w1) as [[] w2].
  destruct (s_write_byte c b w2) as [[] w3]. reflexivity.
Qed.

Lemma s_write_data_status c (b : Z) w :
  fst (s_write_data c b w) = fst (cb_wait_for_busy_flag_clear c w).
Proof.
  unfold s_write_data, mbind, mret.
  destruct (cb_wait_for_busy_flag_clear c w) as [r w1].
  destruct r; simpl; try reflexivity.
  destruct (cb_set_ctrl_pin_state c HD44780_PIN_RS PIN_SET w1) as [[] w2].
  destruct (s_write_byte c b w2) as [[] w3]. reflexivity.
Qed.

(** C5: a framed write starts with the busy-wait callback; on
    [HD44780_TIMEOUT] it returns that status in the world the callback
    left (no RS change, no bus write), and on [HD44780_OK] it drives RS
    low (instruction) or high (data) and sends the byte through
    [s_write_byte]. *)
Theorem framed_write_waits_first c (b : Z) w (r : hd44780_ret_e) (w1 : W) :
  cb_wait_for_busy_flag_clear c w = (r, w1) ->
  (r = HD44780_TIMEOUT ->
     s_write_instruction c b w = (HD44780_TIMEOUT, w1) /\
     s_write_data c b w = (HD44780_TIMEOUT, w1)) /\
  (r = HD44780_OK ->
     s_write_instruction c b w =
       (HD44780_OK,
        snd (s_write_byte c b
               (snd (cb_set_ctrl_pin_state c HD44780_PIN_RS PIN_RESET w1)))) /\
     s_write_data c b w =
       (HD44780_OK,
        snd (s_write_byte c b
               (snd (cb_set_ctrl_pin_state c HD44780_PIN_RS PIN_SET w1))))).
Proof.
  intros Hwait. unfold s_write_instruction, s_write_data, mbind, mret.
  rewrite Hwait. split; intros ->; simpl.
  - split; reflexivity.
  - split.
    + destruct (cb_set_ctrl_pin_state c HD44780_PIN_RS PIN_RESET w1) as [[] w2].
      cbn [snd]. destruct (s_write_byte c b w2) as [[] w3]. reflexivity.
    + destruct (cb_set_ctrl_pin_state c HD44780_PIN_RS PIN_SET w1) as [[] w2].
      cbn [snd]. destruct (s_write_byte c b w2) as [[] w3]. reflexivity.
Qed.

(** ** Addressing *)

(** Inside the configured geometry [hd44780_set_pos] is one framed
    instruction whose byte is [0x80 | (row offset + column)] cut to 8
    bits.  Nothing here keeps [row offset + column] below [0x80]: the
    byte alone does not tell the address. *)
Lemma set_pos_instruction_byte c (row column : Z) w :
  row < number_of_lines c ->
  column < column_width c ->
  hd44780_set_pos c row column w =
    s_set_ddram_addr c (spec_row_offset c row + column) w /\
  s_set_ddram_addr c (spec_row_offset c row + column) w =
    s_write_instruction c
      (u8 (Z.lor REG_DDRAM_ADDR_SET (spec_row_offset c row + column))) w /\
  (fst (cb_wait_for_busy_flag_clear c w) = HD44780_OK ->
   fst (hd44780_set_pos c row column w) = HD44780_OK).
Proof.
  intros Hrow Hcol.
  assert (E : hd44780_set_pos c row column w =
              s_set_ddram_addr c (spec_row_offset c row + column) w).
  { unfold hd44780_set_pos, spec_row_offset.
    destruct (Z.leb_spec (column_width c) column) as [H | _]; [lia |].
    destruct (Z.leb_spec (number_of_lines c) row) as [H | _]; [lia |].
    cbn [orb]. cbv zeta.
    destruct (row =? 1).
    { rewrite s_set_ddram_addr_u8. f_equal. lia. }
    destruct (row =? 2).
    { rewrite s_set_ddram_addr_u8. f_equal. lia. }
    destruct (row =? 3).
    { rewrite u8_add_l, s_set_ddram_addr_u8. f_equal. lia. }
    reflexivity. }
  split; [exact E |]. split; [reflexivity |].
  intros Hok. rewrite E. unfold s_set_ddram_addr.
  rewrite s_write_instruction_status. exact Hok.
Qed.

(** C8: outside the configured geometry [hd44780_set_pos] returns
    [HD44780_INV_ARG] and hands the world back untouched, whatever the
    callbacks are: none of them is invoked. *)
Theorem set_pos_out_of_range c (row column : Z) w :
  number_of_lines c <= row \/ column_width c <= column ->
  hd44780_set_pos c row column w = (HD44780_INV_ARG, w).
Proof.
  intros H. unfold hd44780_set_pos.
  destruct (Z.leb_spec (column_width c) column) as [? | ?];
    [reflexivity |].
  destruct (Z.leb_spec (number_of_lines c) row) as [? | ?];
    [reflexivity | lia].
Qed.

(** ** Custom characters *)

Lemma def_char_loop_framed c (pattern : list Z) (n i : nat) (r : hd44780_ret_e) w :
  (i + n = 8)%nat ->
  def_char_loop c pattern n (Z.of_nat i) r w =
  framed_continue r (pattern_writes c pattern i n) w.
Proof.
  revert i r w. induction n as [| n IH]; intros i r w Hin; [reflexivity |].
  cbn [def_char_loop pattern_writes seq map framed_continue].
  destruct (ret_eqb HD44780_OK r); [| reflexivity].
  destruct (Z.ltb_spec (Z.of_nat i) 8) as [_ | H]; [| lia].
  cbn [andb]. unfold mbind. rewrite Nat2Z.id.
  destruct (s_write_data c (nth i pattern 0) w) as [r1 w1].
  replace (u8 (Z.of_nat i + 1)) with (Z.of_nat (S i))
    by (rewrite u8_small; lia).
  apply IH. lia.
Qed.

Lemma framed_continue_invariant (P : hd44780_ret_e -> Prop)
    (r : hd44780_ret_e) (ops : list (M W hd44780_ret_e)) w :
  P r ->
  Forall (fun op => forall w0, P (fst (op w0))) ops ->
  P (fst (framed_continue r ops w)).
Proof.
  intros Hr Hops. revert r w Hr.
  induction Hops as [| op ops Hop _ IH]; intros r w Hr; [exact Hr |].
  cbn [framed_continue]. destruct (ret_eqb HD44780_OK r); [| exact Hr].
  unfold mbind. specialize (Hop w). destruct (op w) as [r1 w1].
  apply IH. exact Hop.
Qed.

Lemma framed_seq_invariant (P : hd44780_ret_e -> Prop)
    (first : M W hd44780_ret_e) (rest : list (M W hd44780_ret_e)) w :
  Forall (fun op => forall w0, P (fst (op w0))) (first :: rest) ->
  P (fst (framed_seq first rest w)).
Proof.
  intros Hops. inversion Hops as [| ? ? Hfirst Hrest]; subst.
  unfold framed_seq, mbind. specialize (Hfirst w).
  destruct (first w) as [r w1].
  apply framed_continue_invariant; assumption.
Qed.

(** C10: neither function looks at the value of [index].  For every
    index [hd44780_def_char] frames the instruction
    [0x40 | (uint8_t)(index * 8)] followed by the framed data writes of
    [pattern[0..7]] (like every framed sequence it stops at the first
    status that is not [HD44780_OK]), and [hd44780_disp_char] is the
    framed data write of [index] itself.  The status of either is
    always one that the busy-wait callback handed out, so with a
    callback that keeps to its contract ([HD44780_OK] or
    [HD44780_TIMEOUT]) neither returns [HD44780_INV_ARG]. *)
Theorem custom_char_index_not_validated c (index : Z) (pattern : list Z) w :
  hd44780_def_char c index pattern w =
    framed_seq
      (s_write_instruction c (Z.lor REG_CGRAM_ADDR_SET (u8 (index * 8))))
      (pattern_writes c pattern 0 8) w /\
  hd44780_disp_char c index w = s_write_data c index w /\
  wait_status c (fst (hd44780_def_char c index pattern w)) /\
  wait_status c (fst (hd44780_disp_char c index w)) /\
  (wait_contract c ->
   fst (hd44780_def_char c index pattern w) <> HD44780_INV_ARG /\
   fst (hd44780_disp_char c index w) <> HD44780_INV_ARG).
Proof.
  assert (E : hd44780_def_char c index pattern w =
              framed_seq
                (s_write_instruction c (Z.lor REG_CGRAM_ADDR_SET (u8 (index * 8))))
                (pattern_writes c pattern 0 8) w).
  { unfold hd44780_def_char, framed_seq, s_set_char_addr, s_set_cgram_addr, mbind.
    rewrite (u8_lor_small REG_CGRAM_ADDR_SET) by (unfold REG_CGRAM_ADDR_SET; lia).
    destruct (s_write_instruction c _ w) as [r w1].
    apply (def_char_loop_framed c pattern 8 0 r w1). reflexivity. }
  assert (Hops : forall P : hd44780_ret_e -> Prop,
             (forall w0, P (fst (cb_wait_for_busy_flag_clear c w0))) ->
             P (fst (hd44780_def_char c index pattern w)) /\
             P (fst (hd44780_disp_char c index w))).
  { intros P HP. split.
    - rewrite E. apply framed_seq_invariant. constructor.
      + intros w0. rewrite s_write_instruction_status. apply HP.
      + unfold pattern_writes. apply Forall_map, Forall_forall.
        intros j _ w0. rewrite s_write_data_status. apply HP.
    - unfold hd44780_disp_char. rewrite s_write_data_status. apply HP. }
  split; [exact E |]. split; [reflexivity |].
  split; [apply (Hops (wait_status c)); intros w0; exists w0; reflexivity |].
  split; [apply (Hops (wait_status c)); intros w0; exists w0; reflexivity |].
  intros Hc. destruct (Hops ok_or_timeout Hc) as [[H1 | H1] [H2 | H2]];
    rewrite H1, H2; split; discriminate.
Qed.

(** ** Glyph lookup *)

Lemma skipn_nth_cons {A : Type} (l : list A) (i : nat) (d : A) :
  (i < length l)%nat -> skipn i l = nth i l d :: skipn (S i) l.
Proof.
  revert i. induction l as [| x l IH]; intros i Hi; simpl in Hi; [lia |].
  destruct i as [| i]; [reflexivity |].
  cbn [skipn nth]. rewrite (IH i) by lia. reflexivity.
Qed.

Lemma find_loop_first_match c (code : Z) (n i : nat) (index0 : Z) :
  ctx_wf c ->
  (i + n = Z.to_nat (custom_chars_map_len c))%nat ->
  find_loop c code n (Z.of_nat i) index0 =
  match first_match code (firstn n (skipn i (custom_chars_map c))) (Z.of_nat i) with
  | Some j => (HD44780_OK, j)
  | None => (HD44780_CHAR_NOT_FOUND, index0)
  end.
Proof.
  intros [Hlen Hmap]. revert i.
  induction n as [| n IH]; intros i Hin; [reflexivity |].
  cbn [find_loop].
  destruct (Z.ltb_spec (Z.of_nat i) (custom_chars_map_len c)) as [_ | H]; [| lia].
  rewrite Nat2Z.id.
  rewrite (skipn_nth_cons (custom_chars_map c) i
             {| utf_8_code := 0; character_bitmap := [] |}) by lia.
  cbn [firstn first_match].
  destruct (code =? utf_8_code (nth i (custom_chars_map c) _)); [reflexivity |].
  replace (u8 (Z.of_nat i + 1)) with (Z.of_nat (S i)) by (rewrite u8_small; lia).
  replace (Z.of_nat i + 1) with (Z.of_nat (S i)) by lia.
  apply IH. lia.
Qed.

Lemma s_find_character_by_code_slot c (code : Z) (index0 : Z) :
  ctx_wf c ->
  s_find_character_by_code c code index0 =
  match glyph_slot c code with
  | Some j => (HD44780_OK, j)
  | None => (HD44780_CHAR_NOT_FOUND, index0)
  end.
Proof.
  intros Hwf. unfold s_find_character_by_code, glyph_slot.
  apply (find_loop_first_match c code _ 0 index0 Hwf). reflexivity.
Qed.

(** ** Text rendering *)

Lemma write_text_loop_stop c (r : hd44780_ret_e) (text : list Z) w :
  r <> HD44780_OK -> write_text_loop c r text w = (r, w).
Proof.
  intros Hr. destruct text as [| b t].
  - apply write_text_loop_equation_1.
  - rewrite write_text_loop_equation_2, (ret_eqb_OK_neq r Hr). reflexivity.
Qed.

Lemma write_text_loop_ascii c (b : Z) (t : list Z) w :
  0 < b <= 0x7f ->
  write_text_loop c HD44780_OK (b :: t) w =
  let (r, w1) := s_write_data c b w in write_text_loop c r t w1.
Proof.
  intros Hb. rewrite write_text_loop_equation_2.
  destruct (Z.eqb_spec b 0) as [H | _]; [lia |].
  destruct (Z.leb_spec b 127) as [_ | H]; [| lia].
  reflexivity.
Qed.

Lemma write_text_loop_multibyte c (b : Z) (t : list Z) w :
  0x7f < b ->
  write_text_loop c HD44780_OK (b :: t) w =
  let (r, custom_char_index) :=
    s_find_character_by_code c (utf8_codepoint b t) 0 in
  write_text_loop c r (skipn (utf8_cont_len b) t)
    (if ret_eqb HD44780_OK r
     then snd (write_custom_char c custom_char_index w) else w).
Proof.
  intros Hb. rewrite write_text_loop_equation_2.
  destruct (Z.eqb_spec b 0) as [H | _]; [lia |].
  destruct (Z.leb_spec b 127) as [H | _]; [lia |].
  reflexivity.
Qed.

(** A framed ASCII write that does not report [HD44780_OK] ends the
    call with that status; nothing is done for the rest of the text. *)
Lemma write_text_ascii_failure_aborts c (b : Z) (t : list Z) w :
  0 < b <= 0x7f ->
  fst (s_write_data c b w) <> HD44780_OK ->
  write_text_loop c HD44780_OK (b :: t) w = s_write_data c b w.
Proof.
  intros Hb Hfail. rewrite write_text_loop_ascii by exact Hb.
  destruct (s_write_data c b w) as [r w1]. cbn [fst] in Hfail.
  apply write_text_loop_stop. exact Hfail.
Qed.

Lemma utf8_codepoint_app (b : Z) (conts rest : list Z) :
  length conts = utf8_cont_len b ->
  utf8_codepoint b (conts ++ rest) = utf8_codepoint b conts.
Proof.
  unfold utf8_cont_len, utf8_codepoint. intros Hl.
  destruct (b <=? 0xDF); [| destruct (b <=? 0xEF)];
    repeat (destruct conts as [| ? conts]; try discriminate Hl); reflexivity.
Qed.

Lemma skipn_cont_len_app (b : Z) (conts rest : list Z) :
  length conts = utf8_cont_len b ->
  skipn (utf8_cont_len b) (conts ++ rest) = rest.
Proof.
  intros Hl. rewrite <- Hl, skipn_app, skipn_all, Nat.sub_diag. reflexivity.
Qed.

(** Once a prefix of complete characters has been rendered with status
    [HD44780_OK], the loop is at the first byte after the prefix, in the
    world the prefix alone leaves. *)
Lemma write_text_loop_prefix c (chars : list (list Z)) (rest : list Z) w w' :
  Forall complete_char chars ->
  write_text_loop c HD44780_OK (concat chars) w = (HD44780_OK, w') ->
  write_text_loop c HD44780_OK (concat chars ++ rest) w =
  write_text_loop c HD44780_OK rest w'.
Proof.
  intros Hchars. revert w.
  induction Hchars as [| bs chars Hbs _ IH]; intros w Hrun.
  - cbn [concat] in Hrun. rewrite write_text_loop_equation_1 in Hrun.
    injection Hrun as ->. reflexivity.
  - destruct bs as [| b conts]; [contradiction Hbs |].
    destruct Hbs as [Hpos Hconts].
    cbn [concat app] in Hrun |- *. rewrite <- !app_assoc.
    destruct (Z.leb_spec b 0x7f) as [Hb | Hb].
    + subst conts. cbn [app] in Hrun |- *.
      rewrite write_text_loop_ascii in Hrun |- * by lia.
      destruct (s_write_data c b w) as [r w1].
      destruct r;
        try (rewrite write_text_loop_stop in Hrun by discriminate;
             discriminate Hrun).
      apply IH. exact Hrun.
    + rewrite write_text_loop_multibyte in Hrun |- * by lia.
      rewrite utf8_codepoint_app, skipn_cont_len_app in Hrun by assumption.
      rewrite utf8_codepoint_app, skipn_cont_len_app by assumption.
      destruct (s_find_character_by_code c (utf8_codepoint b conts) 0) as [r idx].
      destruct r;
        try (rewrite write_text_loop_stop in Hrun by discriminate;
             discriminate Hrun).
      apply IH. exact Hrun.
Qed.


(** C3, as the code has it: when the loop is at a multi-byte character
    whose code point is not in the glyph map, the call ends with
    [HD44780_CHAR_NOT_FOUND] and the world is left as it is: nothing at
    all is done for the unmapped character, and what was written before
    stays.  Hence, when the characters [chars] in front of it are
    rendered with status [HD44780_OK], [hd44780_write_text] returns
    [HD44780_CHAR_NOT_FOUND] in the very world that rendering [chars]
    alone leaves. *)
Theorem write_text_unmapped_char c (b : Z) (t : list Z) :
  ctx_wf c ->
  0x7f < b ->
  glyph_slot c (utf8_codepoint b t) = None ->
  (forall w,
     write_text_loop c HD44780_OK (b :: t) w = (HD44780_CHAR_NOT_FOUND, w)) /\
  (forall (chars : list (list Z)) w w',
     Forall complete_char chars ->
     hd44780_write_text c (concat chars) w = (HD44780_OK, w') ->
     hd44780_write_text c (concat chars ++ b :: t) w =
       (HD44780_CHAR_NOT_FOUND, w')).
Proof.
  intros Hwf Hb Hslot.
  assert (Hloop : forall w,
     write_text_loop c HD44780_OK (b :: t) w = (HD44780_CHAR_NOT_FOUND, w)).
  { intros w. rewrite write_text_loop_multibyte by exact Hb.
    rewrite (s_find_character_by_code_slot c _ 0 Hwf), Hslot.
    cbn [ret_eqb]. apply write_text_loop_stop. discriminate. }
  split; [exact Hloop |].
  intros chars w w' Hchars Hrun. unfold hd44780_write_text in *.
  rewrite (write_text_loop_prefix c chars (b :: t) w w' Hchars Hrun).
  apply Hloop.
Qed.

(** ** Initialisation *)

Lemma s_upload_custom_chars_oversized c w :
  8 < custom_chars_map_len c ->
  s_upload_custom_chars c w = (HD44780_CUSTOM_CHARS_INV, w).
Proof.
  intros Hlen. unfold s_upload_custom_chars.
  destruct (Z.ltb_spec 8 (custom_chars_map_len c)) as [_ | H]; [reflexivity | lia].
Qed.

Ltac run_action :=
  match goal with
  | |- context [let (_, _) := ?m ?w in _] =>
      lazymatch m with
      | s_write_instruction _ _ => fail
      | _ => destruct (m w) as [[] ?]
      end
  end.

Ltac run_instruction :=
  match goal with
  | |- context [s_write_instruction ?c ?op ?w] =>
      destruct (s_write_instruction c op w) as [[] ?]; cbn [ret_eqb negb];
      try reflexivity
  end.

Lemma init_configure_oversized c w :
  8 < custom_chars_map_len c ->
  init_configure c w =
  let (r, w1) :=
    framed_continue HD44780_OK
      (map (s_write_instruction c) [0x08; 0x01; 0x06; 0x0C]) w in
  (if ret_eqb HD44780_OK r then HD44780_CUSTOM_CHARS_INV else r, w1).
Proof.
  intros Hlen.
  unfold init_configure, hd44780_display_off, hd44780_clear, hd44780_cursor_cfg.
  cbn [map framed_continue ret_eqb Z.eqb CURSOR_OFF]. unfold mbind, mret.
  change (Z.lor REG_PWR_AND_CURSOR REG_DISPLAY_OFF) with 0x08.
  change REG_CLEAR with 0x01.
  change (Z.lor (Z.lor REG_EM REG_EM_SHIFT_CURSOR) REG_EM_INCREMENT) with 0x06.
  change (u8 (Z.lor (Z.lor REG_PWR_AND_CURSOR REG_DISPLAY_ON) REG_CURSOR_OFF))
    with 0x0C.
  do 4 run_instruction.
  apply s_upload_custom_chars_oversized. exact Hlen.
Qed.

Lemma hd44780_init_oversized c w :
  8 < custom_chars_map_len c ->
  hd44780_init c w =
    (let (r, w1) := init_before_upload c w in
     (if ret_eqb HD44780_OK r then HD44780_CUSTOM_CHARS_INV else r, w1)).
Proof.
  intros Hlen. unfold hd44780_init, init_before_upload, init_opcodes.
  cbn [init_seq_short]. unfold mbind, mret.
  change (Z.lor REG_INTERFACE REG_8_BIT_BUS) with 0x30.
  change (Z.lor (Z.lor (Z.lor REG_INTERFACE REG_FONT_SIZE_5X8) REG_TWO_LINES)
                REG_8_BIT_BUS) with 0x38.
  change (Z.lor REG_INTERFACE REG_4_BIT_BUS) with 0x20.
  change (Z.lor (Z.lor (Z.lor REG_INTERFACE REG_FONT_SIZE_5X8) REG_TWO_LINES)
                REG_4_BIT_BUS) with 0x28.
  do 8 run_action.
  destruct (interface_eqb (interface c) INTERFACE_8BIT).
  - run_action. cbn [app]. apply init_configure_oversized. exact Hlen.
  - do 2 run_action. cbn [app map framed_continue ret_eqb]. unfold mbind.
    run_instruction. apply init_configure_oversized. exact Hlen.
Qed.

(** C4, as the code has it: with more than 8 map entries the upload step
    returns [HD44780_CUSTOM_CHARS_INV] without a single callback, so all
    that [hd44780_init] does on the hardware is the handshake and the
    framed instructions in front of the upload, none of which is a
    CGRAM-address-set, and no framed data write.  The status is
    [HD44780_CUSTOM_CHARS_INV] when those instructions all succeed, and
    the status of the first failing one otherwise. *)
Theorem init_oversized_glyph_map c w :
  8 < custom_chars_map_len c ->
  s_upload_custom_chars c w = (HD44780_CUSTOM_CHARS_INV, w) /\
  hd44780_init c w =
    (let (r, w1) := init_before_upload c w in
     (if ret_eqb HD44780_OK r then HD44780_CUSTOM_CHARS_INV else r, w1)) /\
  Forall (fun op => Z.land op 0xC0 <> REG_CGRAM_ADDR_SET) (init_opcodes c).
Proof.
  intros Hlen. split; [apply s_upload_custom_chars_oversized; exact Hlen |].
  split; [apply hd44780_init_oversized; exact Hlen |].
  unfold init_opcodes.
  destruct (interface_eqb (interface c) INTERFACE_8BIT); cbn [app];
    repeat constructor; discriminate.
Qed.

(** ** Busy wait *)

Lemma land_0x80_testbit (a : Z) : negb (Z.land a 0x80 =? 0) = Z.testbit a 7.
Proof.
  destruct (Z.testbit a 7) eqn:Hbit.
  - destruct (Z.eqb_spec (Z.land a 0x80) 0) as [H | _]; [| reflexivity].
    assert (Hl : Z.testbit (Z.land a 0x80) 7 = true)
      by (rewrite Z.land_spec, Hbit; reflexivity).
    rewrite H in Hl. discriminate Hl.
  - destruct (Z.eqb_spec (Z.land a 0x80) 0) as [_ | H]; [reflexivity |].
    contradiction H. apply Z.bits_inj'. intros n Hn.
    rewrite Z.land_spec, Z.bits_0.
    change 0x80 with (2 ^ 7). rewrite Z.pow2_bits_eqb by lia.
    destruct (Z.eqb_spec 7 n) as [<- | _]; [rewrite Hbit; reflexivity |].
    apply andb_false_r.
Qed.

(** The busy flag is bit 7 of an instruction-mode read. *)
Lemma hd44780_is_busy_bit7 c w :
  hd44780_is_busy c w =
  (Z.testbit (fst (s_read_address c w)) 7, snd (s_read_address c w)).
Proof.
  unfold hd44780_is_busy, mbind, mret.
  destruct (s_read_address c w) as [a w1]. cbn [fst snd].
  rewrite land_0x80_testbit. reflexivity.
Qed.

Lemma s_wait_loop_step c (timeout_ms : Z) w :
  s_wait_loop c timeout_ms w =
  if 0 <=? timeout_ms then
    let (busy, w1) := hd44780_is_busy c w in
    if busy then
      s_wait_loop c (int_sub_uint timeout_ms HD44780_TIMEOUT_TICK_MS)
        (snd (cb_delay_ms c (u8 HD44780_TIMEOUT_TICK_MS) w1))
    else (HD44780_OK, w1)
  else (HD44780_TIMEOUT, w).
Proof.
  rewrite s_wait_loop_equation_1.
  destruct (Z_le_gt_dec 0 timeout_ms) as [H | H];
    destruct (Z.leb_spec 0 timeout_ms) as [H' | H']; try lia.
  - cbn. destruct (hd44780_is_busy c w) as [[|] w1]; reflexivity.
  - reflexivity.
Qed.

Lemma int_sub_uint_tick (t : Z) :
  0 <= t < 2 ^ 31 -> int_sub_uint t HD44780_TIMEOUT_TICK_MS = t - 1.
Proof.
  intros Ht. unfold int_sub_uint, to_int, to_uint, HD44780_TIMEOUT_TICK_MS.
  change (2 ^ 32) with 4294967296 in *. change (2 ^ 31) with 2147483648 in *.
  change (1 mod 4294967296) with 1.
  rewrite (Z.mod_small t) by lia.
  destruct (Z.eq_dec t 0) as [-> | Hne]; [reflexivity |].
  rewrite (Z.mod_small (t - 1)) by lia.
  destruct (Z.ltb_spec (t - 1) 2147483648); lia.
Qed.

Lemma s_wait_loop_busy c (k : nat) (t : Z) w :
  Z.of_nat k <= t + 1 -> t < 2 ^ 31 ->
  busy_for c k w = true ->
  s_wait_loop c t w = s_wait_loop c (t - Z.of_nat k) (after_polls c k w).
Proof.
  revert t w. induction k as [| k IH]; intros t w Hk Ht Hbusy.
  - cbn [after_polls]. f_equal. lia.
  - cbn [busy_for] in Hbusy. apply andb_prop in Hbusy as [Hb Hrest].
    rewrite s_wait_loop_step.
    destruct (Z.leb_spec 0 t) as [H0 | H0]; [| lia].
    cbn [after_polls]. unfold poll_round in *.
    destruct (hd44780_is_busy c w) as [busy w1]. cbn [fst snd] in *. subst busy.
    rewrite int_sub_uint_tick by lia.
    change (u8 HD44780_TIMEOUT_TICK_MS) with HD44780_TIMEOUT_TICK_MS.
    rewrite IH by (try exact Hrest; lia). f_equal. lia.
Qed.

(** C6, as the code has it: the loop guard is [0 <= timeout_ms] with
    [timeout_ms] running from [HD44780_TIMEOUT_MS] down to [0], so up
    to [HD44780_TIMEOUT_MS + 1 = 101] polls are made.  If the first [k]
    polls ([k <= 100]) see the flag set and the next one sees it clear,
    the wait returns [HD44780_OK] right after that poll, one tick having
    passed after each of the [k] busy polls; if all [101] polls see the
    flag set it returns [HD44780_TIMEOUT] after [101] polls and ticks. *)
Theorem wait_till_busy_polls c w :
  (forall k : nat,
     (k <= 100)%nat ->
     busy_for c k w = true ->
     fst (hd44780_is_busy c (after_polls c k w)) = false ->
     s_wait_till_busy c w =
       (HD44780_OK, snd (hd44780_is_busy c (after_polls c k w)))) /\
  (busy_for c 101 w = true ->
   s_wait_till_busy c w = (HD44780_TIMEOUT, after_polls c 101 w)).
Proof.
  unfold s_wait_till_busy, HD44780_TIMEOUT_MS. split.
  - intros k Hk Hbusy Hclear.
    rewrite (s_wait_loop_busy c k 100 w) by (try exact Hbusy; lia).
    rewrite s_wait_loop_step.
    destruct (Z.leb_spec 0 (100 - Z.of_nat k)) as [_ | H]; [| lia].
    destruct (hd44780_is_busy c (after_polls c k w)) as [busy w1].
    cbn [fst snd] in *. subst busy. reflexivity.
  - intros Hbusy.
    rewrite (s_wait_loop_busy c 101 100 w) by (try exact Hbusy; lia).
    rewrite s_wait_loop_step. reflexivity.
Qed.

Lemma s_wait_loop_status c (timeout_ms : Z) w :
  ok_or_timeout (fst (s_wait_loop c timeout_ms w)).
Proof.
  remember (Z.to_nat (timeout_ms + 1)) as n eqn:Hn.
  revert timeout_ms w Hn.
  induction n as [n IH] using lt_wf_ind. intros t w Hn.
  rewrite s_wait_loop_step.
  destruct (Z.leb_spec 0 t) as [Ht | Ht]; [| right; reflexivity].
  destruct (hd44780_is_busy c w) as [[|] w1]; [| left; reflexivity].
  destruct (Z_lt_ge_dec t (2 ^ 31)) as [Hsmall | Hbig].
  - apply (IH (Z.to_nat (int_sub_uint t HD44780_TIMEOUT_TICK_MS + 1)));
      [| reflexivity].
    rewrite int_sub_uint_tick by lia. lia.
  - apply (IH (Z.to_nat (int_sub_uint t HD44780_TIMEOUT_TICK_MS + 1)));
      [| reflexivity].
    assert (int_sub_uint t HD44780_TIMEOUT_TICK_MS < 2 ^ 31); [| lia].
    unfold int_sub_uint, to_int.
    pose proof (Z.mod_pos_bound (to_uint t - to_uint HD44780_TIMEOUT_TICK_MS)
                  (2 ^ 32) eq_refl).
    destruct (Z.ltb_spec
                ((to_uint t - to_uint HD44780_TIMEOUT_TICK_MS) mod 2 ^ 32)
                (2 ^ 31)); lia.
Qed.

(** The polling wait of the driver keeps to the callback contract. *)
Lemma polling_wait_contract c : wait_contract (install_wait s_wait_till_busy c).
Proof. intros w. apply s_wait_loop_status. Qed.

End DriverFacts.

Import Mock MockRuns.

(** ** Bus transport on the recording double *)

(** In 4-bit mode the low nibble of the first read is or-ed into the
    result next to the high nibble of the second read. *)
Lemma s_read_byte_4bit (r1 r2 : Z) (rest : list Z) (waits : list hd44780_ret_e) :
  fst (s_read_byte (lcd INTERFACE_4BIT) (power_on (r1 :: r2 :: rest) waits)) =
  Z.lor (u8 r1) (u8 (Z.shiftr (u8 r2) 4)).
Proof. reflexivity. Qed.

(** C9 (evaluation at the failing input): the two reads [0x4F] and
    [0x20] are combined into [0x4F], with two enable pulses, where the
    nibble join of the specification gives [0x42]. *)
Theorem read_byte_4bit_low_nibble_leak :
  s_read_byte (lcd INTERFACE_4BIT) (power_on [0x4F; 0x20] []) =
    (0x4F,
     {| trace :=
          [SetBusDirection GPIO_DIR_IN; SetCtrlPin HD44780_PIN_RW PIN_SET;
           SetCtrlPin HD44780_PIN_E PIN_SET; ReadBus 0x4F;
           SetCtrlPin HD44780_PIN_E PIN_RESET;
           SetCtrlPin HD44780_PIN_E PIN_SET; ReadBus 0x20;
           SetCtrlPin HD44780_PIN_E PIN_RESET];
        bus_in := []; busy_in := [] |}) /\
  spec_read_byte_4bit 0x4F 0x20 = 0x42.
Proof. split; reflexivity. Qed.

(** ** Framing on the recording double *)

(** The trace of a framed write, for any answer [r] of the busy wait:
    the wait comes first, and only after [HD44780_OK] do the RS change
    and the bus pulses follow. *)
Lemma framed_write_trace (map : list character_mapping) (len lines width : Z)
    (iface : hd44780_interface) (rs : hd44780_pin_state) (b : Z)
    (tr : list event) (reads : list Z) (r : hd44780_ret_e)
    (waits : list hd44780_ret_e) :
  (match rs with
   | PIN_RESET => s_write_instruction
   | PIN_SET => s_write_data
   end) (ctx map len lines width iface) b
    {| trace := tr; bus_in := reads; busy_in := r :: waits |} =
  (r, {| trace :=
           tr ++ WaitBusy r ::
             (if ret_eqb HD44780_OK r
              then SetCtrlPin HD44780_PIN_RS rs :: write_byte_events iface b
              else []);
         bus_in := reads; busy_in := waits |}).
Proof.
  destruct rs, iface, r; cbn; rewrite <- ?app_assoc; reflexivity.
Qed.

Lemma framed_write_waits_first_witness :
  s_write_instruction (lcd INTERFACE_8BIT) 0x01 (power_on [] [HD44780_TIMEOUT]) =
    (HD44780_TIMEOUT,
     {| trace := [WaitBusy HD44780_TIMEOUT]; bus_in := []; busy_in := [] |}) /\
  s_write_data (lcd INTERFACE_4BIT) 0x48 (power_on [] [HD44780_OK]) =
    (HD44780_OK,
     {| trace :=
          [WaitBusy HD44780_OK; SetCtrlPin HD44780_PIN_RS PIN_SET;
           SetCtrlPin HD44780_PIN_RW PIN_RESET; SetBusDirection GPIO_DIR_OUT;
           SetCtrlPin HD44780_PIN_E PIN_SET; WriteBus 0x48;
           SetCtrlPin HD44780_PIN_E PIN_RESET;
           SetCtrlPin HD44780_PIN_RW PIN_RESET; SetBusDirection GPIO_DIR_OUT;
           SetCtrlPin HD44780_PIN_E PIN_SET; WriteBus 0x80;
           SetCtrlPin HD44780_PIN_E PIN_RESET];
        bus_in := []; busy_in := [] |}).
Proof.
  split.
  - exact (proj1 (proj1 (framed_write_waits_first (lcd INTERFACE_8BIT) 0x01
                           (power_on [] [HD44780_TIMEOUT]) HD44780_TIMEOUT _ eq_refl)
                        eq_refl)).
  - exact (proj2 (proj2 (framed_write_waits_first (lcd INTERFACE_4BIT) 0x48
                           (power_on [] [HD44780_OK]) HD44780_OK _ eq_refl)
                        eq_refl)).
Defined.

(** ** Addressing on the recording double *)

Lemma set_pos_out_of_range_witness :
  hd44780_set_pos (lcd INTERFACE_8BIT) 4 0 (power_on [] []) =
  (HD44780_INV_ARG, power_on [] []).
Proof.
  apply (set_pos_out_of_range (lcd INTERFACE_8BIT) 4 0 (power_on [] [])).
  left. cbn. lia.
Defined.


(** ** Custom characters on the recording double *)

Lemma custom_char_index_not_validated_witness :
  fst (hd44780_def_char (polling_ctx mappings 3 4 20 INTERFACE_8BIT) 9
         [0x1F; 0x11; 0x11; 0x11; 0x11; 0x11; 0x1F; 0x00] (power_on [] []))
    <> HD44780_INV_ARG /\
  filter (fun e => match e with WriteBus _ => true | _ => false end)
    (trace (snd (hd44780_def_char (polling_ctx mappings 3 4 20 INTERFACE_8BIT) 9
                   [0x1F; 0x11; 0x11; 0x11; 0x11; 0x11; 0x1F; 0x00]
                   (power_on [] [])))) =
    map WriteBus [0x48; 0x1F; 0x11; 0x11; 0x11; 0x11; 0x11; 0x1F; 0x00].
Proof.
  split.
  - exact (proj1 (proj2 (proj2 (proj2 (proj2
      (custom_char_index_not_validated
         (polling_ctx mappings 3 4 20 INTERFACE_8BIT) 9
         [0x1F; 0x11; 0x11; 0x11; 0x11; 0x11; 0x1F; 0x00] (power_on [] [])))))
      (polling_wait_contract (ctx mappings 3 4 20 INTERFACE_8BIT)))).
  - vm_compute. reflexivity.
Defined.

(** ** Text rendering on the recording double *)

(** C2 (evaluation at the failing input): two mapped characters,
    U+00E8 twice, are written while every busy wait reports
    [HD44780_TIMEOUT].  All four framed writes time out, the second
    character is still processed (second address read), and the call
    returns [HD44780_OK]. *)
Theorem write_text_drops_glyph_timeouts :
  hd44780_write_text (lcd INTERFACE_8BIT) [0xC3; 0xA8; 0xC3; 0xA8]
    (power_on [0x05; 0x06]
       [HD44780_TIMEOUT; HD44780_TIMEOUT; HD44780_TIMEOUT; HD44780_TIMEOUT]) =
  (HD44780_OK,
   {| trace :=
        [SetCtrlPin HD44780_PIN_RS PIN_RESET; SetBusDirection GPIO_DIR_IN;
         SetCtrlPin HD44780_PIN_RW PIN_SET; SetCtrlPin HD44780_PIN_E PIN_SET;
         ReadBus 0x05; SetCtrlPin HD44780_PIN_E PIN_RESET;
         WaitBusy HD44780_TIMEOUT; WaitBusy HD44780_TIMEOUT;
         SetCtrlPin HD44780_PIN_RS PIN_RESET; SetBusDirection GPIO_DIR_IN;
         SetCtrlPin HD44780_PIN_RW PIN_SET; SetCtrlPin HD44780_PIN_E PIN_SET;
         ReadBus 0x06; SetCtrlPin HD44780_PIN_E PIN_RESET;
         WaitBusy HD44780_TIMEOUT; WaitBusy HD44780_TIMEOUT];
      bus_in := []; busy_in := [] |}).
Proof. vm_compute. reflexivity. Qed.

(** The sibling path: a timeout on an ASCII character ends the call
    with [HD44780_TIMEOUT] and nothing is done for what follows. *)
Lemma write_text_ascii_timeout_aborts :
  hd44780_write_text (lcd INTERFACE_8BIT) [0x48; 0x69]
    (power_on [] [HD44780_TIMEOUT]) =
  (HD44780_TIMEOUT,
   {| trace := [WaitBusy HD44780_TIMEOUT]; bus_in := []; busy_in := [] |}).
Proof. vm_compute. reflexivity. Qed.


Lemma write_text_unmapped_char_witness :
  hd44780_write_text (lcd INTERFACE_8BIT) [0x48; 0xC3; 0xA9; 0x69]
    (power_on [] []) =
  (HD44780_CHAR_NOT_FOUND,
   {| trace :=
        [WaitBusy HD44780_OK; SetCtrlPin HD44780_PIN_RS PIN_SET;
         SetCtrlPin HD44780_PIN_RW PIN_RESET; SetBusDirection GPIO_DIR_OUT;
         SetCtrlPin HD44780_PIN_E PIN_SET; WriteBus 0x48;
         SetCtrlPin HD44780_PIN_E PIN_RESET];
      bus_in := []; busy_in := [] |}).
Proof.
  assert (Hwf : ctx_wf (lcd INTERFACE_8BIT)) by (split; cbn; lia).
  assert (Hslot : glyph_slot (lcd INTERFACE_8BIT)
                    (utf8_codepoint 0xC3 [0xA9; 0x69]) = None)
    by (vm_compute; reflexivity).
  apply (proj2 (write_text_unmapped_char (lcd INTERFACE_8BIT) 0xC3 [0xA9; 0x69]
                  Hwf eq_refl Hslot)
           [[0x48]] (power_on [] [])).
  - repeat constructor.
  - vm_compute. reflexivity.
Defined.

(** C3 as stated fails when the busy wait of a preceding
    ASCII character times out: the text contains the unmapped U+00E9,
    yet the call returns [HD44780_TIMEOUT] and the data write for the
    preceding ['H'] is never made. *)
Lemma write_text_unmapped_char_after_timeout :
  glyph_slot (lcd INTERFACE_8BIT) (utf8_codepoint 0xC3 [0xA9]) = None /\
  hd44780_write_text (lcd INTERFACE_8BIT) [0x48; 0xC3; 0xA9]
    (power_on [] [HD44780_TIMEOUT]) =
  (HD44780_TIMEOUT,
   {| trace := [WaitBusy HD44780_TIMEOUT]; bus_in := []; busy_in := [] |}) /\
  fst (hd44780_write_text (lcd INTERFACE_8BIT) [0x48; 0xC3; 0xA9]
         (power_on [] [HD44780_TIMEOUT])) <> HD44780_CHAR_NOT_FOUND.
Proof.
  split; [vm_compute; reflexivity |].
  split; [vm_compute; reflexivity |].
  vm_compute. discriminate.
Qed.

(** ** Initialisation on the recording double *)

Ltac split_waits :=
  repeat (match goal with
          | ws : list hd44780_ret_e |- _ => destruct ws as [| [] ws]
          end; try reflexivity).

(** Whatever the busy waits answer, an initialisation with an oversized
    glyph map never raises RS: nothing is written to the data register. *)
Lemma init_oversized_never_raises_rs
    (map : list character_mapping) (len lines width : Z)
    (iface : hd44780_interface) (reads : list Z) (waits : list hd44780_ret_e) :
  8 < len ->
  rs_raised
    (trace (snd (hd44780_init (ctx map len lines width iface)
                   (power_on reads waits)))) = false.
Proof.
  intros Hlen. rewrite hd44780_init_oversized by exact Hlen.
  destruct iface; split_waits.
Qed.

(** On the 8-bit bus, where every bus write is a whole instruction,
    none of the bytes written is a CGRAM-address-set ([01xxxxxx]). *)
Lemma init_oversized_writes_no_cgram_address
    (map : list character_mapping) (len lines width : Z)
    (reads : list Z) (waits : list hd44780_ret_e) :
  8 < len ->
  forallb (fun e => match e with
                    | WriteBus v => negb (Z.land v 0xC0 =? REG_CGRAM_ADDR_SET)
                    | _ => true
                    end)
    (trace (snd (hd44780_init (ctx map len lines width INTERFACE_8BIT)
                   (power_on reads waits)))) = true.
Proof.
  intros Hlen. rewrite hd44780_init_oversized by exact Hlen.
  split_waits.
Qed.

Lemma init_oversized_glyph_map_witness :
  fst (hd44780_init (lcd9 INTERFACE_4BIT) (power_on [] [])) =
    HD44780_CUSTOM_CHARS_INV /\
  rs_raised (trace (snd (hd44780_init (lcd9 INTERFACE_4BIT) (power_on [] []))))
    = false /\
  filter (fun e => match e with WriteBus _ => true | _ => false end)
    (trace (snd (hd44780_init (lcd9 INTERFACE_4BIT) (power_on [] [])))) =
    map WriteBus [0x30; 0x30; 0x30; 0x20;
                  0x28; 0x80; 0x08; 0x80; 0x01; 0x10; 0x06; 0x60; 0x0C; 0xC0].
Proof.
  rewrite (proj1 (proj2 (init_oversized_glyph_map (lcd9 INTERFACE_4BIT)
                           (power_on [] []) eq_refl))).
  repeat split; vm_compute; reflexivity.
Defined.

(** C4 as stated fails when a framed instruction in front of
    the upload times out: nine glyphs are announced, yet
    [hd44780_init] returns [HD44780_TIMEOUT]. *)
Lemma init_oversized_glyph_map_after_timeout :
  8 < custom_chars_map_len (lcd9 INTERFACE_8BIT) /\
  fst (hd44780_init (lcd9 INTERFACE_8BIT) (power_on [] [HD44780_TIMEOUT])) =
    HD44780_TIMEOUT /\
  fst (hd44780_init (lcd9 INTERFACE_8BIT) (power_on [] [HD44780_TIMEOUT])) <>
    HD44780_CUSTOM_CHARS_INV.
Proof.
  split; [reflexivity |]. split; [vm_compute; reflexivity |].
  vm_compute. discriminate.
Qed.

(** ** Busy wait on the recording double *)

Lemma wait_till_busy_polls_witness :
  s_wait_till_busy (lcd INTERFACE_8BIT) (power_on [0x80; 0x80; 0x00] []) =
    (HD44780_OK,
     snd (hd44780_is_busy (lcd INTERFACE_8BIT)
            (after_polls (lcd INTERFACE_8BIT) 2
               (power_on [0x80; 0x80; 0x00] [])))) /\
  s_wait_till_busy (lcd INTERFACE_4BIT) (power_on (repeat 0xFF 202) []) =
    (HD44780_TIMEOUT,
     after_polls (lcd INTERFACE_4BIT) 101 (power_on (repeat 0xFF 202) [])).
Proof.
  split.
  - apply (proj1 (wait_till_busy_polls (lcd INTERFACE_8BIT)
                    (power_on [0x80; 0x80; 0x00] [])) 2%nat).
    + lia.
    + vm_compute. reflexivity.
    + vm_compute. reflexivity.
  - apply (proj2 (wait_till_busy_polls (lcd INTERFACE_4BIT)
                    (power_on (repeat 0xFF 202) []))).
    vm_compute. reflexivity.
Defined.

(** C6 as stated fails on the number of polls.  With a flag
    that never clears the wait returns [HD44780_TIMEOUT] after 101
    polls and 101 ticks, not 100; and with a flag that is set during
    the first 100 polls and clear at the next one, the 101st poll is
    made and the wait returns [HD44780_OK]. *)
Lemma wait_till_busy_polls_101 :
  (fst (s_wait_till_busy (lcd INTERFACE_8BIT) (power_on (repeat 0x80 200) [])) =
     HD44780_TIMEOUT /\
   reads (trace (snd (s_wait_till_busy (lcd INTERFACE_8BIT)
                        (power_on (repeat 0x80 200) [])))) = 101%nat /\
   delays (trace (snd (s_wait_till_busy (lcd INTERFACE_8BIT)
                         (power_on (repeat 0x80 200) [])))) = 101%nat /\
   reads (trace (snd (s_wait_till_busy (lcd INTERFACE_8BIT)
                        (power_on (repeat 0x80 200) [])))) <> 100%nat) /\
  (fst (s_wait_till_busy (lcd INTERFACE_8BIT)
          (power_on (repeat 0x80 100 ++ [0x00]) [])) = HD44780_OK /\
   reads (trace (snd (s_wait_till_busy (lcd INTERFACE_8BIT)
                        (power_on (repeat 0x80 100 ++ [0x00]) [])))) = 101%nat).
Proof.
  repeat split; try (vm_compute; reflexivity).
  vm_compute. discriminate.
Qed.

(** * The rest of the driver *)

Section MoreDriverFacts.

Context {W : Type}.
Implicit Types (c : hd44780_ctx W) (w : W).

(** ** Cursor configuration *)

(** X1: [hd44780_cursor_cfg] frames one instruction, [0x0C], [0x0E] or
    [0x0F], for the three cursor settings, and for any other value it
    returns [HD44780_INV_ARG] without a single callback. *)
Theorem cursor_cfg_cases c (cursor_cfg : Z) w :
  (cursor_cfg = CURSOR_OFF ->
   hd44780_cursor_cfg c cursor_cfg w = s_write_instruction c 0x0C w) /\
  (cursor_cfg = CURSOR_ON ->
   hd44780_cursor_cfg c cursor_cfg w = s_write_instruction c 0x0E w) /\
  (cursor_cfg = CURSOR_BLINK ->
   hd44780_cursor_cfg c cursor_cfg w = s_write_instruction c 0x0F w) /\
  (cursor_cfg <> CURSOR_OFF -> cursor_cfg <> CURSOR_ON ->
   cursor_cfg <> CURSOR_BLINK ->
   hd44780_cursor_cfg c cursor_cfg w = (HD44780_INV_ARG, w)).
Proof.
  repeat split; try (intros ->; reflexivity).
  intros H0 H1 H2. unfold hd44780_cursor_cfg.
  destruct (Z.eqb_spec cursor_cfg CURSOR_OFF); [contradiction |].
  destruct (Z.eqb_spec cursor_cfg CURSOR_ON); [contradiction |].
  destruct (Z.eqb_spec cursor_cfg CURSOR_BLINK); [contradiction |].
  reflexivity.
Qed.

(** ** Text rendering *)

Lemma write_text_loop_nul c (r : hd44780_ret_e) (t : list Z) w :
  write_text_loop c r (0 :: t) w = (r, w).
Proof.
  rewrite write_text_loop_equation_2. cbn [Z.eqb negb].
  rewrite andb_false_r. reflexivity.
Qed.

Lemma write_text_loop_ascii_text c (r : hd44780_ret_e) (text : list Z) w :
  Forall ascii_byte text ->
  write_text_loop c r text w = framed_continue r (map (s_write_data c) text) w.
Proof.
  intros Htext. revert r w.
  induction Htext as [| b t Hb _ IH]; intros r w.
  - apply write_text_loop_equation_1.
  - cbn [map framed_continue].
    destruct (ret_eqb HD44780_OK r) eqn:Hr.
    + apply ret_eqb_eq in Hr. subst r.
      rewrite write_text_loop_ascii by exact Hb.
      unfold mbind. destruct (s_write_data c b w) as [r1 w1]. apply IH.
    + apply write_text_loop_stop. intros ->. discriminate Hr.
Qed.

(** X2: a text of bytes [0x01..0x7f] is rendered as the framed data
    writes of its bytes, in order, up to and including the first one
    whose status is not [HD44780_OK]; that status, or [HD44780_OK], is
    the result.  The empty text does nothing. *)
Theorem write_text_ascii c (text : list Z) w :
  Forall ascii_byte text ->
  hd44780_write_text c text w =
  framed_continue HD44780_OK (map (s_write_data c) text) w.
Proof. apply write_text_loop_ascii_text. Qed.

Lemma write_text_loop_terminator c (chars : list (list Z)) (rest : list Z)
    (r : hd44780_ret_e) w :
  Forall complete_char chars ->
  write_text_loop c r (concat chars ++ 0 :: rest) w =
  write_text_loop c r (concat chars) w.
Proof.
  intros Hchars. revert r w.
  induction Hchars as [| bs chars Hbs _ IH]; intros r w.
  - cbn [concat app]. rewrite write_text_loop_nul, write_text_loop_equation_1.
    reflexivity.
  - destruct (ret_eqb HD44780_OK r) eqn:Hr.
    2:{ rewrite !write_text_loop_stop by (intros ->; discriminate Hr).
        reflexivity. }
    apply ret_eqb_eq in Hr. subst r.
    destruct bs as [| b conts]; [contradiction Hbs |].
    destruct Hbs as [Hpos Hconts].
    cbn [concat app]. rewrite <- !app_assoc.
    destruct (Z.leb_spec b 0x7f) as [Hb | Hb].
    + subst conts. cbn [app].
      rewrite !write_text_loop_ascii by lia.
      destruct (s_write_data c b w) as [r1 w1]. apply IH.
    + rewrite !write_text_loop_multibyte by lia.
      rewrite (utf8_codepoint_app b conts (concat chars ++ 0 :: rest)),
              (utf8_codepoint_app b conts (concat chars)),
              (skipn_cont_len_app b conts (concat chars ++ 0 :: rest)),
              (skipn_cont_len_app b conts (concat chars)) by assumption.
      destruct (s_find_character_by_code c (utf8_codepoint b conts) 0) as [r1 idx].
      apply IH.
Qed.

(** X3: the terminator ends the text.  Behind complete characters a
    zero byte stops the loop: whatever follows it in memory is neither
    written nor looked up. *)
Theorem write_text_stops_at_terminator c (chars : list (list Z)) (rest : list Z) w :
  Forall complete_char chars ->
  hd44780_write_text c (concat chars ++ 0 :: rest) w =
  hd44780_write_text c (concat chars) w.
Proof. apply write_text_loop_terminator. Qed.

(** X4: a multi-byte sequence cut short by the terminator is not
    detected.  The leading byte takes the bytes it announces, the
    terminator among them, and the loop resumes in the memory behind
    the terminator. *)
Theorem write_text_truncated_sequence c (b : Z) (conts rest : list Z) w :
  0x7f < b ->
  (length conts < utf8_cont_len b)%nat ->
  hd44780_write_text c (b :: conts ++ 0 :: rest) w =
  let (r, custom_char_index) :=
    s_find_character_by_code c (utf8_codepoint b (conts ++ 0 :: rest)) 0 in
  write_text_loop c r
    (skipn (utf8_cont_len b - length conts - 1) rest)
    (if ret_eqb HD44780_OK r
     then snd (write_custom_char c custom_char_index w) else w).
Proof.
  intros Hb Hlen. unfold hd44780_write_text.
  rewrite write_text_loop_multibyte by exact Hb.
  replace (skipn (utf8_cont_len b) (conts ++ 0 :: rest))
    with (skipn (utf8_cont_len b - length conts - 1) rest); [reflexivity |].
  rewrite skipn_app, (skipn_all2 conts) by lia. cbn [app].
  destruct (utf8_cont_len b - length conts)%nat as [| k] eqn:Hk; [lia |].
  cbn [skipn]. f_equal. lia.
Qed.

(** ** Glyph lookup *)

Lemma find_loop_scan c (code : Z) (n i : nat) (index0 : Z) :
  0 <= custom_chars_map_len c <= 255 ->
  (i + n = Z.to_nat (custom_chars_map_len c))%nat ->
  let code_at k :=
    utf_8_code (nth (Z.to_nat k) (custom_chars_map c)
                  {| utf_8_code := 0; character_bitmap := [] |}) in
  let (r, j) := find_loop c code n (Z.of_nat i) index0 in
  (r = HD44780_OK /\ Z.of_nat i <= j < custom_chars_map_len c /\
   code_at j = code /\
   (forall k, Z.of_nat i <= k < j -> code_at k <> code)) \/
  (r = HD44780_CHAR_NOT_FOUND /\ j = index0 /\
   (forall k, Z.of_nat i <= k < custom_chars_map_len c -> code_at k <> code)).
Proof.
  intros Hlen. revert i. induction n as [| n IH]; intros i Hin code_at.
  - cbn [find_loop]. right. split; [reflexivity |]. split; [reflexivity |].
    intros k Hk. lia.
  - cbn [find_loop].
    destruct (Z.ltb_spec (Z.of_nat i) (custom_chars_map_len c)) as [Hi | Hi]; [| lia].
    destruct (Z.eqb_spec code
                (utf_8_code (nth (Z.to_nat (Z.of_nat i)) (custom_chars_map c)
                               {| utf_8_code := 0; character_bitmap := [] |})))
      as [Heq | Hne].
    + left. split; [reflexivity |]. split; [lia |]. split.
      * subst code_at. cbn beta. symmetry. exact Heq.
      * intros k Hk. lia.
    + replace (u8 (Z.of_nat i + 1)) with (Z.of_nat (S i)) by (rewrite u8_small; lia).
      specialize (IH (S i) ltac:(lia)). cbn zeta in IH.
      destruct (find_loop c code n (Z.of_nat (S i)) index0) as [r j].
      destruct IH as [(Hr & Hj & Hcode & Hbefore) | (Hr & Hj & Hnone)].
      * left. split; [exact Hr |]. split; [lia |]. split; [exact Hcode |].
        intros k Hk. destruct (Z.eq_dec k (Z.of_nat i)) as [-> | Hki].
        -- subst code_at. cbn beta. intros E. apply Hne. symmetry. exact E.
        -- apply Hbefore. lia.
      * right. split; [exact Hr |]. split; [exact Hj |].
        intros k Hk. destruct (Z.eq_dec k (Z.of_nat i)) as [-> | Hki].
        -- subst code_at. cbn beta. intros E. apply Hne. symmetry. exact E.
        -- apply Hnone. lia.
Qed.

(** X5: the lookup is a linear scan in which the first match wins.  It
    either returns [HD44780_OK] with the least index below
    [custom_chars_map_len] whose entry carries the code, or
    [HD44780_CHAR_NOT_FOUND] when no entry below the length carries it,
    and then the caller's index is left as it was. *)
Theorem find_character_first_match c (code index0 : Z) :
  0 <= custom_chars_map_len c <= 255 ->
  let code_at k :=
    utf_8_code (nth (Z.to_nat k) (custom_chars_map c)
                  {| utf_8_code := 0; character_bitmap := [] |}) in
  let (r, j) := s_find_character_by_code c code index0 in
  (r = HD44780_OK /\ 0 <= j < custom_chars_map_len c /\
   code_at j = code /\
   (forall k, 0 <= k < j -> code_at k <> code)) \/
  (r = HD44780_CHAR_NOT_FOUND /\ j = index0 /\
   (forall k, 0 <= k < custom_chars_map_len c -> code_at k <> code)).
Proof.
  intros Hlen. unfold s_find_character_by_code.
  apply (find_loop_scan c code (Z.to_nat (custom_chars_map_len c)) 0 index0 Hlen).
  reflexivity.
Qed.

(** ** Glyph upload and initialisation *)

Lemma upload_loop_framed c (n i : nat) (r : hd44780_ret_e) w :
  custom_chars_map_len c <= 255 ->
  (i + n = Z.to_nat (custom_chars_map_len c))%nat ->
  upload_loop c n (Z.of_nat i) r w = framed_continue r (glyph_uploads c i n) w.
Proof.
  intros Hlen. revert i r w. induction n as [| n IH]; intros i r w Hin;
    [reflexivity |].
  cbn [upload_loop glyph_uploads seq map framed_continue].
  destruct (Z.ltb_spec (Z.of_nat i) (custom_chars_map_len c)) as [_ | H]; [| lia].
  cbn [andb]. replace (ret_eqb r HD44780_OK) with (ret_eqb HD44780_OK r)
    by (destruct r; reflexivity).
  destruct (ret_eqb HD44780_OK r); [| reflexivity].
  unfold mbind. rewrite Nat2Z.id.
  destruct (hd44780_def_char c (Z.of_nat i) _ w) as [r1 w1].
  replace (u8 (Z.of_nat i + 1)) with (Z.of_nat (S i)) by (rewrite u8_small; lia).
  apply IH. lia.
Qed.

(** X6: with at most 8 entries the upload defines the glyphs in map
    order, entry [i] in slot [i] with its own bitmap, and stops behind
    the first [hd44780_def_char] whose status is not [HD44780_OK]; an
    empty map is accepted without a single callback. *)
Theorem upload_custom_chars_in_order c w :
  0 <= custom_chars_map_len c <= 8 ->
  s_upload_custom_chars c w =
    framed_continue HD44780_OK
      (glyph_uploads c 0 (Z.to_nat (custom_chars_map_len c))) w /\
  (custom_chars_map_len c = 0 -> s_upload_custom_chars c w = (HD44780_OK, w)).
Proof.
  intros Hlen.
  assert (E : s_upload_custom_chars c w =
              framed_continue HD44780_OK
                (glyph_uploads c 0 (Z.to_nat (custom_chars_map_len c))) w).
  { unfold s_upload_custom_chars.
    destruct (Z.ltb_spec 8 (custom_chars_map_len c)) as [H | _]; [lia |].
    apply (upload_loop_framed c _ 0 HD44780_OK w); [lia | reflexivity]. }
  split; [exact E |]. intros H0. rewrite E, H0. reflexivity.
Qed.

Ltac run_action :=
  match goal with
  | |- context [let (_, _) := ?m ?w in _] =>
      lazymatch m with
      | s_write_instruction _ _ => fail
      | _ => destruct (m w) as [[] ?]
      end
  end.

Ltac run_instruction :=
  match goal with
  | |- context [s_write_instruction ?c ?op ?w] =>
      destruct (s_write_instruction c op w) as [[] ?]; cbn [ret_eqb negb];
      try reflexivity
  end.

Lemma init_configure_framed c w :
  init_configure c w =
  let (r, w1) :=
    framed_continue HD44780_OK
      (map (s_write_instruction c) [0x08; 0x01; 0x06; 0x0C]) w in
  if ret_eqb HD44780_OK r then s_upload_custom_chars c w1 else (r, w1).
Proof.
  unfold init_configure, hd44780_display_off, hd44780_clear, hd44780_cursor_cfg.
  cbn [map framed_continue ret_eqb Z.eqb CURSOR_OFF]. unfold mbind, mret.
  change (Z.lor REG_PWR_AND_CURSOR REG_DISPLAY_OFF) with 0x08.
  change REG_CLEAR with 0x01.
  change (Z.lor (Z.lor REG_EM REG_EM_SHIFT_CURSOR) REG_EM_INCREMENT) with 0x06.
  change (u8 (Z.lor (Z.lor REG_PWR_AND_CURSOR REG_DISPLAY_ON) REG_CURSOR_OFF))
    with 0x0C.
  do 4 run_instruction.
Qed.

Lemma hd44780_init_split c w :
  hd44780_init c w =
  let (r, w1) := init_before_upload c w in
  if ret_eqb HD44780_OK r then s_upload_custom_chars c w1 else (r, w1).
Proof.
  unfold hd44780_init, init_before_upload, init_opcodes.
  cbn [init_seq_short]. unfold mbind, mret.
  change (Z.lor REG_INTERFACE REG_8_BIT_BUS) with 0x30.
  change (Z.lor (Z.lor (Z.lor REG_INTERFACE REG_FONT_SIZE_5X8) REG_TWO_LINES)
                REG_8_BIT_BUS) with 0x38.
  change (Z.lor REG_INTERFACE REG_4_BIT_BUS) with 0x20.
  change (Z.lor (Z.lor (Z.lor REG_INTERFACE REG_FONT_SIZE_5X8) REG_TWO_LINES)
                REG_4_BIT_BUS) with 0x28.
  do 8 run_action.
  destruct (interface_eqb (interface c) INTERFACE_8BIT).
  - run_action. cbn [app]. apply init_configure_framed.
  - do 2 run_action. cbn [app map framed_continue ret_eqb]. unfold mbind.
    run_instruction. apply init_configure_framed.
Qed.

(** X7: [hd44780_init] is the unframed handshake, then the framed
    instructions function set (4-bit only), display off, clear, entry
    mode and cursor off, then the glyph upload.  The first framed
    instruction that fails ends it with that status, nothing further
    being sent; the upload, and with it the check of the map length,
    is reached only when all of them succeeded. *)
Theorem init_aborts_at_first_failure c w :
  hd44780_init c w =
  let (r, w1) := init_before_upload c w in
  if ret_eqb HD44780_OK r then s_upload_custom_chars c w1 else (r, w1).
Proof. apply hd44780_init_split. Qed.

(** ** Statuses *)

Lemma hd44780_def_char_framed c (index : Z) (pattern : list Z) w :
  hd44780_def_char c index pattern w =
  framed_seq (s_write_instruction c (u8 (Z.lor REG_CGRAM_ADDR_SET (u8 (index * 8)))))
    (pattern_writes c pattern 0 8) w.
Proof.
  unfold hd44780_def_char, framed_seq, s_set_char_addr, s_set_cgram_addr, mbind.
  destruct (s_write_instruction c _ w) as [r w1].
  apply (def_char_loop_framed c pattern 8 0 r w1). reflexivity.
Qed.

Section Statuses.

Variable c : hd44780_ctx W.
Variable P : hd44780_ret_e -> Prop.
Hypothesis P_wait : forall w, P (fst (cb_wait_for_busy_flag_clear c w)).

Lemma s_write_instruction_in (b : Z) w : P (fst (s_write_instruction c b w)).
Proof. rewrite s_write_instruction_status. apply P_wait. Qed.

Lemma s_write_data_in (b : Z) w : P (fst (s_write_data c b w)).
Proof. rewrite s_write_data_status. apply P_wait. Qed.

Lemma hd44780_def_char_in (index : Z) (pattern : list Z) w :
  P (fst (hd44780_def_char c index pattern w)).
Proof.
  rewrite hd44780_def_char_framed. apply framed_seq_invariant. constructor.
  - intros w0. apply s_write_instruction_in.
  - unfold pattern_writes. apply Forall_map, Forall_forall.
    intros j _ w0. apply s_write_data_in.
Qed.

Lemma upload_loop_in (n : nat) (i : Z) (r : hd44780_ret_e) w :
  P r -> P (fst (upload_loop c n i r w)).
Proof.
  revert i r w. induction n as [| n IH]; intros i r w Hr; [exact Hr |].
  cbn [upload_loop].
  destruct ((i <? custom_chars_map_len c) && ret_eqb r HD44780_OK); [| exact Hr].
  unfold mbind.
  pose proof (hd44780_def_char_in i
                (character_bitmap
                   (nth (Z.to_nat i) (custom_chars_map c)
                      {| utf_8_code := 0; character_bitmap := [] |})) w) as Hd.
  destruct (hd44780_def_char c i _ w) as [r1 w1]. apply IH. exact Hd.
Qed.

Lemma find_loop_status (code : Z) (n : nat) (i index0 : Z) :
  fst (find_loop c code n i index0) = HD44780_OK \/
  fst (find_loop c code n i index0) = HD44780_CHAR_NOT_FOUND.
Proof.
  revert i. induction n as [| n IH]; intros i; [right; reflexivity |].
  cbn [find_loop].
  destruct (i <? custom_chars_map_len c); [| right; reflexivity].
  destruct (code =? _); [left; reflexivity | apply IH].
Qed.

Hypothesis P_ok : P HD44780_OK.
Hypothesis P_not_found : P HD44780_CHAR_NOT_FOUND.

Lemma write_text_loop_in (r : hd44780_ret_e) (text : list Z) w :
  P r -> P (fst (write_text_loop c r text w)).
Proof.
  remember (length text) as n eqn:Hn. revert r text w Hn.
  induction n as [n IH] using lt_wf_ind. intros r text w Hn Hr.
  destruct text as [| b t]; [rewrite write_text_loop_equation_1; exact Hr |].
  rewrite write_text_loop_equation_2.
  destruct (ret_eqb HD44780_OK r && negb (b =? 0)); [| exact Hr].
  destruct (b <=? 127).
  - pose proof (s_write_data_in b w) as Hd.
    destruct (s_write_data c b w) as [r1 w1].
    apply (IH (length t)); [subst n; cbn; lia | reflexivity | exact Hd].
  - pose proof (find_loop_status (utf8_codepoint b t)
                  (Z.to_nat (custom_chars_map_len c)) 0 0) as Hf.
    unfold s_find_character_by_code.
    destruct (find_loop c _ _ 0 0) as [r1 idx]. cbn [fst] in Hf.
    apply (IH (length (skipn (utf8_cont_len b) t)));
      [subst n; cbn; rewrite length_skipn; lia | reflexivity |].
    destruct Hf as [-> | ->]; assumption.
Qed.

End Statuses.

(** X8: with a busy-wait callback that keeps to its contract every
    public function returns only the statuses its header lists:
    [HD44780_OK] or [HD44780_TIMEOUT], and besides these
    [HD44780_INV_ARG] from [hd44780_set_pos] and [hd44780_cursor_cfg],
    [HD44780_CHAR_NOT_FOUND] from [hd44780_write_text] and
    [HD44780_CUSTOM_CHARS_INV] from [hd44780_init]. *)
Theorem public_statuses c :
  wait_contract c ->
  (forall w, ok_or_timeout (fst (hd44780_clear c w))) /\
  (forall w, ok_or_timeout (fst (hd44780_display_off c w))) /\
  (forall index pattern w,
     ok_or_timeout (fst (hd44780_def_char c index pattern w))) /\
  (forall index w, ok_or_timeout (fst (hd44780_disp_char c index w))) /\
  (forall row column w,
     ok_timeout_or HD44780_INV_ARG (fst (hd44780_set_pos c row column w))) /\
  (forall cursor_cfg w,
     ok_timeout_or HD44780_INV_ARG (fst (hd44780_cursor_cfg c cursor_cfg w))) /\
  (forall text w,
     ok_timeout_or HD44780_CHAR_NOT_FOUND (fst (hd44780_write_text c text w))) /\
  (forall w, ok_timeout_or HD44780_CUSTOM_CHARS_INV (fst (hd44780_init c w))).
Proof.
  intros Hc.
  assert (Hw : forall extra w,
             ok_timeout_or extra (fst (cb_wait_for_busy_flag_clear c w))).
  { intros extra w. destruct (Hc w) as [H | H]; rewrite H;
      [left | right; left]; reflexivity. }
  split; [intros w; apply (s_write_instruction_in c ok_or_timeout Hc) |].
  split; [intros w; apply (s_write_instruction_in c ok_or_timeout Hc) |].
  split; [intros index pattern w; apply (hd44780_def_char_in c ok_or_timeout Hc) |].
  split; [intros index w; apply (s_write_data_in c ok_or_timeout Hc) |].
  split.
  { intros row column w. unfold hd44780_set_pos.
    destruct ((column_width c <=? column) || (number_of_lines c <=? row));
      [right; right; reflexivity |].
    apply (s_write_instruction_in c _ (Hw HD44780_INV_ARG)). }
  split.
  { intros cursor_cfg w. unfold hd44780_cursor_cfg.
    destruct (cursor_cfg =? CURSOR_OFF);
      [apply (s_write_instruction_in c _ (Hw HD44780_INV_ARG)) |].
    destruct (cursor_cfg =? CURSOR_ON);
      [apply (s_write_instruction_in c _ (Hw HD44780_INV_ARG)) |].
    destruct (cursor_cfg =? CURSOR_BLINK);
      [apply (s_write_instruction_in c _ (Hw HD44780_INV_ARG)) |].
    right; right; reflexivity. }
  split.
  { intros text w. unfold hd44780_write_text.
    apply (write_text_loop_in c _ (Hw HD44780_CHAR_NOT_FOUND));
      [left | right; right | left]; reflexivity. }
  intros w. rewrite hd44780_init_split.
  assert (Hpre : ok_timeout_or HD44780_CUSTOM_CHARS_INV
                   (fst (init_before_upload c w))).
  { unfold init_before_upload, mbind.
    repeat match goal with
           | |- context [let (_, _) := ?m ?w0 in _] =>
               lazymatch m with
               | framed_continue _ _ => fail
               | _ => destruct (m w0) as [[] ?]
               end
           end.
    apply framed_continue_invariant; [left; reflexivity |].
    apply Forall_map, Forall_forall. intros op _ w'.
    apply (s_write_instruction_in c _ (Hw HD44780_CUSTOM_CHARS_INV)). }
  destruct (init_before_upload c w) as [r w1]. cbn [fst] in Hpre.
  destruct (ret_eqb HD44780_OK r); [| exact Hpre].
  unfold s_upload_custom_chars.
  destruct (8 <? custom_chars_map_len c); [right; right; reflexivity |].
  apply (upload_loop_in c _ (Hw HD44780_CUSTOM_CHARS_INV)). left; reflexivity.
Qed.

End MoreDriverFacts.

(** ** Bit arithmetic *)

Lemma testbit_small (r n k : Z) :
  0 <= k <= n -> 0 <= r < 2 ^ k -> Z.testbit r n = false.
Proof.
  intros Hk Hr. apply Z.testbit_false; [lia |].
  rewrite Z.div_small; [reflexivity |].
  split; [lia |]. apply Z.lt_le_trans with (2 ^ k); [lia |].
  apply Z.pow_le_mono_r; lia.
Qed.

(** Or-ing a value below [2 ^ k] under a value shifted left by [k] is
    their sum. *)
Lemma lor_shiftl_add (q r k : Z) :
  0 <= k -> 0 <= r < 2 ^ k -> Z.lor (Z.shiftl q k) r = q * 2 ^ k + r.
Proof.
  intros Hk Hr.
  assert (Hland : Z.land (Z.shiftl q k) r = 0).
  { apply Z.bits_inj'. intros n Hn. rewrite Z.land_spec, Z.bits_0.
    destruct (Z_lt_ge_dec n k) as [Hlt | Hge].
    - rewrite Z.shiftl_spec_low by lia. reflexivity.
    - rewrite (testbit_small r n k) by lia. apply andb_false_r. }
  rewrite <- Z.lxor_lor, <- Z.add_nocarry_lxor by exact Hland.
  rewrite Z.shiftl_mul_pow2 by lia. reflexivity.
Qed.

(** A property checked on every value of a range holds on the range. *)
Lemma range_forallb (f : Z -> bool) (n : nat) :
  forallb f (map Z.of_nat (seq 0 n)) = true ->
  forall x, 0 <= x < Z.of_nat n -> f x = true.
Proof.
  intros Hall x Hx. rewrite forallb_forall in Hall. apply Hall.
  apply in_map_iff. exists (Z.to_nat x). split; [lia |].
  apply in_seq. lia.
Qed.

Lemma lor_0x80_small (x : Z) : 0 <= x < 0x80 -> Z.lor 0x80 x = 0x80 + x.
Proof.
  intros Hx. change 0x80 with (Z.shiftl 1 7) at 1.
  rewrite lor_shiftl_add by (try reflexivity; cbn; lia). reflexivity.
Qed.

(** An address of seven bits under the opcode: neither the narrowing
    nor the OR touches it. *)
Lemma ddram_instruction_small (a : Z) :
  0 <= a < 0x80 ->
  u8 (Z.lor REG_DDRAM_ADDR_SET (u8 a)) = REG_DDRAM_ADDR_SET + a.
Proof.
  intros Ha. unfold REG_DDRAM_ADDR_SET. rewrite (u8_small a) by lia.
  rewrite lor_0x80_small by lia. apply u8_small. lia.
Qed.

Lemma ddram_address_small (a : Z) :
  0 <= a < 0x80 -> ddram_address (REG_DDRAM_ADDR_SET + a) = a.
Proof.
  intros Ha. unfold ddram_address, REG_DDRAM_ADDR_SET.
  change 0x7F with (Z.ones 7). rewrite Z.land_ones by lia.
  change (2 ^ 7) with 128.
  symmetry. apply (Z.mod_unique (128 + a) 128 1 a); lia.
Qed.

Section Addressing.

Context {W : Type}.
Implicit Types (c : hd44780_ctx W) (w : W).

(** C1: inside the configured geometry, and while
    [row offset + column] fits the seven address bits,
    [hd44780_set_pos] is exactly one framed DDRAM-address-set
    instruction, the byte [0x80 + row offset + column], whose address
    is [row offset + column]: the busy wait first, then, when it
    returned [HD44780_OK], RS low and the byte, and the status is the
    one of the wait. *)
Theorem set_pos_in_range c (row column : Z) w :
  0 <= row < number_of_lines c ->
  0 <= column < column_width c ->
  spec_row_offset c row + column <= 0x7F ->
  ddram_address (REG_DDRAM_ADDR_SET + (spec_row_offset c row + column))
  = spec_row_offset c row + column /\
  hd44780_set_pos c row column w =
    s_write_instruction c
      (REG_DDRAM_ADDR_SET + (spec_row_offset c row + column)) w /\
  (forall r w1,
     cb_wait_for_busy_flag_clear c w = (r, w1) ->
     hd44780_set_pos c row column w =
       if ret_eqb HD44780_OK r then
         (HD44780_OK,
          snd (s_write_byte c
                 (REG_DDRAM_ADDR_SET + (spec_row_offset c row + column))
                 (snd (cb_set_ctrl_pin_state c HD44780_PIN_RS PIN_RESET w1))))
       else (r, w1)) /\
  (fst (cb_wait_for_busy_flag_clear c w) = HD44780_OK ->
   fst (hd44780_set_pos c row column w) = HD44780_OK).
Proof.
  intros Hrow Hcol Hfit.
  assert (Hoff : 0 <= spec_row_offset c row).
  { unfold spec_row_offset.
    destruct (row =? 1), (row =? 2), (row =? 3); lia. }
  assert (E : hd44780_set_pos c row column w =
              s_write_instruction c
                (REG_DDRAM_ADDR_SET + (spec_row_offset c row + column)) w).
  { revert Hfit Hoff.
    unfold hd44780_set_pos, spec_row_offset, s_set_ddram_addr.
    destruct (Z.leb_spec (column_width c) column) as [H | _]; [lia |].
    destruct (Z.leb_spec (number_of_lines c) row) as [H | _]; [lia |].
    cbn [orb]. cbv zeta.
    destruct (Z.eqb_spec row 1).
    { intros Hfit _. rewrite ddram_instruction_small by lia. f_equal. lia. }
    destruct (Z.eqb_spec row 2).
    { intros Hfit _. rewrite ddram_instruction_small by lia. f_equal. lia. }
    destruct (Z.eqb_spec row 3).
    { intros Hfit _. rewrite u8_add_l, ddram_instruction_small by lia.
      f_equal. lia. }
    intros Hfit _. rewrite <- (u8_small column) at 1 by lia.
    rewrite ddram_instruction_small by lia. reflexivity. }
  split; [apply ddram_address_small; lia |].
  split; [exact E |]. split.
  - intros r w1 Hwait. rewrite E.
    unfold s_write_instruction, mbind, mret. rewrite Hwait.
    destruct r; cbn [ret_eqb]; try reflexivity.
    destruct (cb_set_ctrl_pin_state c HD44780_PIN_RS PIN_RESET w1) as [[] w2].
    cbn [snd]. destruct (s_write_byte c _ w2) as [[] w3]. reflexivity.
  - intros Hok. rewrite E, s_write_instruction_status. exact Hok.
Qed.

(** X9: on a display of at most 4 lines and at most 32 columns the
    address arithmetic never wraps: [hd44780_set_pos] frames the
    instruction byte [0x80 + row offset + column] itself, and two
    positions of the display are framed with the same byte only when
    they are the same position. *)
Theorem set_pos_addresses_distinct c (row1 column1 row2 column2 : Z) :
  number_of_lines c <= 4 ->
  column_width c <= 32 ->
  0 <= row1 < number_of_lines c -> 0 <= column1 < column_width c ->
  0 <= row2 < number_of_lines c -> 0 <= column2 < column_width c ->
  (forall w,
     hd44780_set_pos c row1 column1 w =
     s_write_instruction c (0x80 + spec_row_offset c row1 + column1) w) /\
  (0x80 + spec_row_offset c row1 + column1 =
   0x80 + spec_row_offset c row2 + column2 ->
   row1 = row2 /\ column1 = column2).
Proof.
  intros Hlines Hwidth Hr1 Hc1 Hr2 Hc2. split.
  - intros w. unfold hd44780_set_pos, spec_row_offset, s_set_ddram_addr.
    destruct (Z.leb_spec (column_width c) column1) as [H | _]; [lia |].
    destruct (Z.leb_spec (number_of_lines c) row1) as [H | _]; [lia |].
    cbn [orb]. cbv zeta. unfold REG_DDRAM_ADDR_SET.
    assert (Hbyte : forall a, 0 <= a < 0x80 ->
                      u8 (Z.lor 0x80 (u8 a)) = 0x80 + a).
    { intros a Ha. rewrite (u8_small a) by lia.
      rewrite lor_0x80_small by lia. apply u8_small. lia. }
    destruct (Z.eqb_spec row1 1).
    { rewrite Hbyte by lia. f_equal. lia. }
    destruct (Z.eqb_spec row1 2).
    { rewrite Hbyte by lia. f_equal. lia. }
    destruct (Z.eqb_spec row1 3).
    { rewrite u8_add_l, Hbyte by lia. f_equal. lia. }
    rewrite <- (u8_small column1) at 1 by lia.
    rewrite Hbyte by lia. reflexivity.
  - unfold spec_row_offset.
    destruct (Z.eqb_spec row1 1), (Z.eqb_spec row1 2), (Z.eqb_spec row1 3),
             (Z.eqb_spec row2 1), (Z.eqb_spec row2 2), (Z.eqb_spec row2 3);
      lia.
Qed.

(** X10: a row above 3 is not rejected when [number_of_lines] allows
    it; it is addressed exactly like row 0. *)
Theorem set_pos_rows_above_3_alias_row_0 c (row column : Z) w :
  3 < row < number_of_lines c ->
  hd44780_set_pos c row column w = hd44780_set_pos c 0 column w.
Proof.
  intros Hrow. unfold hd44780_set_pos.
  destruct (Z.leb_spec (number_of_lines c) row) as [H | _]; [lia |].
  destruct (Z.leb_spec (number_of_lines c) 0) as [H | _]; [lia |].
  destruct (Z.eqb_spec row 1); [lia |].
  destruct (Z.eqb_spec row 2); [lia |].
  destruct (Z.eqb_spec row 3); [lia |].
  reflexivity.
Qed.

(** X11: the missing index check of [hd44780_def_char] makes slots
    alias: an index in [8..15] frames the same CGRAM address as the
    index 8 below it and overwrites that glyph, and indices 32 apart
    always coincide. *)
Theorem def_char_index_aliases c (index : Z) (pattern : list Z) w :
  hd44780_def_char c (index + 32) pattern w = hd44780_def_char c index pattern w /\
  (0 <= index < 8 ->
   hd44780_def_char c (index + 8) pattern w = hd44780_def_char c index pattern w).
Proof.
  split.
  - unfold hd44780_def_char, s_set_char_addr.
    assert (E : u8 ((index + 32) * 8) = u8 (index * 8)).
    { unfold u8. replace ((index + 32) * 8) with (index * 8 + 1 * 256) by lia.
      apply Z_mod_plus_full. }
    rewrite E. reflexivity.
  - intros Hi. unfold hd44780_def_char, s_set_char_addr, s_set_cgram_addr.
    assert (E : u8 (Z.lor REG_CGRAM_ADDR_SET (u8 ((index + 8) * 8))) =
                u8 (Z.lor REG_CGRAM_ADDR_SET (u8 (index * 8)))).
    { pose proof (range_forallb
                    (fun i => u8 (Z.lor REG_CGRAM_ADDR_SET (u8 ((i + 8) * 8))) =?
                              u8 (Z.lor REG_CGRAM_ADDR_SET (u8 (i * 8))))
                    8 eq_refl index Hi) as H.
      apply Z.eqb_eq in H. exact H. }
    rewrite E. reflexivity.
Qed.

End Addressing.

Lemma set_pos_in_range_witness :
  spec_row_offset (lcd INTERFACE_8BIT) 3 + 5 <= 0x7F /\
  ddram_address 0xD9 = 0x40 + 20 + 5 /\
  hd44780_set_pos (lcd INTERFACE_8BIT) 3 5 (power_on [] []) =
    (HD44780_OK,
     {| trace :=
          [WaitBusy HD44780_OK; SetCtrlPin HD44780_PIN_RS PIN_RESET;
           SetCtrlPin HD44780_PIN_RW PIN_RESET; SetBusDirection GPIO_DIR_OUT;
           SetCtrlPin HD44780_PIN_E PIN_SET; WriteBus 0xD9;
           SetCtrlPin HD44780_PIN_E PIN_RESET];
        bus_in := []; busy_in := [] |}) /\
  hd44780_set_pos (lcd INTERFACE_8BIT) 3 5 (power_on [] [HD44780_TIMEOUT]) =
    (HD44780_TIMEOUT,
     {| trace := [WaitBusy HD44780_TIMEOUT]; bus_in := []; busy_in := [] |}).
Proof.
  assert (Hrow : 0 <= 3 < number_of_lines (lcd INTERFACE_8BIT)) by (cbn; lia).
  assert (Hcol : 0 <= 5 < column_width (lcd INTERFACE_8BIT)) by (cbn; lia).
  assert (Hfit : spec_row_offset (lcd INTERFACE_8BIT) 3 + 5 <= 0x7F)
    by (cbn; lia).
  split; [exact Hfit |]. split; [| split].
  - exact (proj1 (set_pos_in_range (lcd INTERFACE_8BIT) 3 5 (power_on [] [])
                    Hrow Hcol Hfit)).
  - exact (proj1 (proj2 (proj2 (set_pos_in_range (lcd INTERFACE_8BIT) 3 5
                                  (power_on [] []) Hrow Hcol Hfit)))
             HD44780_OK _ eq_refl).
  - exact (proj1 (proj2 (proj2 (set_pos_in_range (lcd INTERFACE_8BIT) 3 5
                                  (power_on [] [HD44780_TIMEOUT])
                                  Hrow Hcol Hfit)))
             HD44780_TIMEOUT _ eq_refl).
Defined.

(** C1 as stated fails when [row offset + column] leaves the seven
    address bits.  On a display of 4 lines of 40 columns the position
    (3, 39) is inside the geometry and its offset plus column is
    [0x8F]; the instruction framed is [0x8F], whose address is [0x0F],
    and the call is the one for the position (0, 15). *)
Lemma set_pos_in_range_wraps :
  3 < number_of_lines (Mock.ctx mappings 3 4 40 INTERFACE_8BIT) /\
  39 < column_width (Mock.ctx mappings 3 4 40 INTERFACE_8BIT) /\
  spec_row_offset (Mock.ctx mappings 3 4 40 INTERFACE_8BIT) 3 + 39 = 0x8F /\
  hd44780_set_pos (Mock.ctx mappings 3 4 40 INTERFACE_8BIT) 3 39
    (power_on [] []) =
    (HD44780_OK,
     {| trace :=
          [WaitBusy HD44780_OK; SetCtrlPin HD44780_PIN_RS PIN_RESET;
           SetCtrlPin HD44780_PIN_RW PIN_RESET; SetBusDirection GPIO_DIR_OUT;
           SetCtrlPin HD44780_PIN_E PIN_SET; WriteBus 0x8F;
           SetCtrlPin HD44780_PIN_E PIN_RESET];
        bus_in := []; busy_in := [] |}) /\
  ddram_address 0x8F = 0x0F /\
  ddram_address 0x8F <>
    spec_row_offset (Mock.ctx mappings 3 4 40 INTERFACE_8BIT) 3 + 39 /\
  hd44780_set_pos (Mock.ctx mappings 3 4 40 INTERFACE_8BIT) 3 39
    (power_on [] []) =
  hd44780_set_pos (Mock.ctx mappings 3 4 40 INTERFACE_8BIT) 0 15
    (power_on [] []).
Proof.
  split; [reflexivity |]. split; [reflexivity |]. split; [reflexivity |].
  split; [reflexivity |]. split; [reflexivity |].
  split; [vm_compute; discriminate | reflexivity].
Qed.

(** ** UTF-8 *)

Lemma lor_mul_add (a r k : Z) :
  0 <= k -> 0 <= r < 2 ^ k -> Z.lor (a * 2 ^ k) r = a * 2 ^ k + r.
Proof.
  intros Hk Hr. rewrite <- Z.shiftl_mul_pow2 by exact Hk.
  rewrite lor_shiftl_add by assumption. rewrite Z.shiftl_mul_pow2 by exact Hk.
  reflexivity.
Qed.

Lemma land_0x3F (x : Z) : Z.land x 0x3F = x mod 64.
Proof. change 0x3F with (Z.ones 6). rewrite Z.land_ones by lia. reflexivity. Qed.

Lemma continuation_byte (r : Z) :
  0 <= r < 64 -> Z.land (Z.lor 0x80 r) 0x3F = r.
Proof.
  intros Hr. apply Z.eqb_eq.
  apply (range_forallb (fun x => Z.land (Z.lor 0x80 x) 0x3F =? x) 64 eq_refl r Hr).
Qed.

Lemma leading_byte_2 (q : Z) :
  0 <= q < 32 ->
  Z.land (Z.lor 0xC0 q) 0x1F = q /\ 0x7f < Z.lor 0xC0 q <= 0xDF.
Proof.
  intros Hq.
  pose proof (range_forallb
                (fun x => (Z.land (Z.lor 0xC0 x) 0x1F =? x)
                          && (0x7f <? Z.lor 0xC0 x) && (Z.lor 0xC0 x <=? 0xDF))
                32 eq_refl q Hq) as H.
  cbv beta in H. apply andb_prop in H as [H H3]. apply andb_prop in H as [H1 H2].
  apply Z.eqb_eq in H1. apply Z.ltb_lt in H2. apply Z.leb_le in H3. lia.
Qed.

Lemma leading_byte_3 (q : Z) :
  0 <= q < 16 ->
  Z.land (Z.lor 0xE0 q) 0x0F = q /\ 0xDF < Z.lor 0xE0 q <= 0xEF.
Proof.
  intros Hq.
  pose proof (range_forallb
                (fun x => (Z.land (Z.lor 0xE0 x) 0x0F =? x)
                          && (0xDF <? Z.lor 0xE0 x) && (Z.lor 0xE0 x <=? 0xEF))
                16 eq_refl q Hq) as H.
  cbv beta in H. apply andb_prop in H as [H H3]. apply andb_prop in H as [H1 H2].
  apply Z.eqb_eq in H1. apply Z.ltb_lt in H2. apply Z.leb_le in H3. lia.
Qed.

Lemma leading_byte_4 (q : Z) :
  0 <= q < 8 ->
  Z.land (Z.lor 0xF0 q) 0x07 = q /\ 0xEF < Z.lor 0xF0 q.
Proof.
  intros Hq.
  pose proof (range_forallb
                (fun x => (Z.land (Z.lor 0xF0 x) 0x07 =? x)
                          && (0xEF <? Z.lor 0xF0 x))
                8 eq_refl q Hq) as H.
  cbv beta in H. apply andb_prop in H as [H1 H2].
  apply Z.eqb_eq in H1. apply Z.ltb_lt in H2. lia.
Qed.

(** The decoder of [hd44780_write_text] inverts the UTF-8 encoding on
    every code point that takes more than one byte. *)
Lemma utf8_codepoint_encode (cp : Z) :
  0x80 <= cp < 0x110000 ->
  exists b conts,
    utf8_encode cp = b :: conts /\ 0x7f < b /\
    length conts = utf8_cont_len b /\ utf8_codepoint b conts = cp.
Proof.
  intros Hcp. unfold utf8_encode.
  destruct (Z.ltb_spec cp 0x80) as [H | _]; [lia |].
  pose proof (Z.div_mod cp 64 ltac:(lia)) as D0.
  pose proof (Z.mod_pos_bound cp 64 ltac:(lia)) as M0.
  pose proof (Z.div_mod (cp / 64) 64 ltac:(lia)) as D1.
  pose proof (Z.mod_pos_bound (cp / 64) 64 ltac:(lia)) as M1.
  pose proof (Z.div_mod (cp / 64 / 64) 64 ltac:(lia)) as D2.
  pose proof (Z.mod_pos_bound (cp / 64 / 64) 64 ltac:(lia)) as M2.
  assert (S6 : Z.shiftr cp 6 = cp / 64)
    by (rewrite Z.shiftr_div_pow2 by lia; reflexivity).
  assert (S12 : Z.shiftr cp 12 = cp / 64 / 64)
    by (rewrite Z.shiftr_div_pow2, Z.div_div by lia; reflexivity).
  assert (S18 : Z.shiftr cp 18 = cp / 64 / 64 / 64)
    by (rewrite Z.shiftr_div_pow2, !Z.div_div by lia; reflexivity).
  rewrite !land_0x3F, S6, S12, S18.
  destruct (Z.ltb_spec cp 0x800) as [H2 | H2];
    [| destruct (Z.ltb_spec cp 0x10000) as [H3 | H3]].
  - destruct (leading_byte_2 (cp / 64) ltac:(lia)) as [Hq Hb].
    eexists; eexists. split; [reflexivity |]. split; [lia |].
    unfold utf8_cont_len, utf8_codepoint.
    destruct (Z.leb_spec (Z.lor 0xC0 (cp / 64)) 0xDF) as [_ | H]; [| lia].
    split; [reflexivity |]. cbn [nth].
    rewrite Hq, continuation_byte by lia.
    rewrite lor_shiftl_add by (cbn; lia). change (2 ^ 6) with 64. lia.
  - destruct (leading_byte_3 (cp / 64 / 64) ltac:(lia)) as [Hq Hb].
    eexists; eexists. split; [reflexivity |]. split; [lia |].
    unfold utf8_cont_len, utf8_codepoint.
    destruct (Z.leb_spec (Z.lor 0xE0 (cp / 64 / 64)) 0xDF) as [H | _]; [lia |].
    destruct (Z.leb_spec (Z.lor 0xE0 (cp / 64 / 64)) 0xEF) as [_ | H]; [| lia].
    split; [reflexivity |]. cbn [nth].
    rewrite Hq, !continuation_byte by lia.
    rewrite !Z.shiftl_mul_pow2 by lia.
    rewrite (lor_mul_add (cp / 64 / 64) _ 12) by (cbn; lia).
    change (2 ^ 12) with 4096. change (2 ^ 6) with 64.
    replace (cp / 64 / 64 * 4096 + (cp / 64) mod 64 * 64)
      with ((cp / 64 / 64 * 64 + (cp / 64) mod 64) * 2 ^ 6) by (cbn; lia).
    rewrite lor_mul_add by (cbn; lia). change (2 ^ 6) with 64. lia.
  - destruct (leading_byte_4 (cp / 64 / 64 / 64) ltac:(lia)) as [Hq Hb].
    eexists; eexists. split; [reflexivity |]. split; [lia |].
    unfold utf8_cont_len, utf8_codepoint.
    destruct (Z.leb_spec (Z.lor 0xF0 (cp / 64 / 64 / 64)) 0xDF) as [H | _]; [lia |].
    destruct (Z.leb_spec (Z.lor 0xF0 (cp / 64 / 64 / 64)) 0xEF) as [H | _]; [lia |].
    split; [reflexivity |]. cbn [nth].
    rewrite Hq, !continuation_byte by lia.
    rewrite !Z.shiftl_mul_pow2 by lia.
    rewrite (lor_mul_add (cp / 64 / 64 / 64) _ 18) by (cbn; lia).
    change (2 ^ 18) with 262144. change (2 ^ 12) with 4096. change (2 ^ 6) with 64.
    replace (cp / 64 / 64 / 64 * 262144 + (cp / 64 / 64) mod 64 * 4096)
      with ((cp / 64 / 64 / 64 * 64 + (cp / 64 / 64) mod 64) * 2 ^ 12) by (cbn; lia).
    rewrite (lor_mul_add _ ((cp / 64) mod 64 * 64) 12) by (cbn; lia).
    change (2 ^ 12) with 4096.
    replace ((cp / 64 / 64 / 64 * 64 + (cp / 64 / 64) mod 64) * 4096
             + (cp / 64) mod 64 * 64)
      with (((cp / 64 / 64 / 64 * 64 + (cp / 64 / 64) mod 64) * 64
             + (cp / 64) mod 64) * 2 ^ 6) by (cbn; lia).
    rewrite lor_mul_add by (cbn; lia). change (2 ^ 6) with 64. lia.
Qed.

(** X12: the text loop decodes UTF-8.  For every code point from
    U+0080 to U+10FFFF, a text that starts with its UTF-8 encoding makes
    the loop look up exactly that code point and resume right behind
    the encoding. *)
Theorem write_text_decodes_utf8 {W : Type} (c : hd44780_ctx W)
    (cp : Z) (rest : list Z) (w : W) :
  0x80 <= cp < 0x110000 ->
  hd44780_write_text c (utf8_encode cp ++ rest) w =
  let (r, custom_char_index) := s_find_character_by_code c cp 0 in
  write_text_loop c r rest
    (if ret_eqb HD44780_OK r
     then snd (write_custom_char c custom_char_index w) else w).
Proof.
  intros Hcp.
  destruct (utf8_codepoint_encode cp Hcp) as (b & conts & Henc & Hb & Hlen & Hdec).
  rewrite Henc. cbn [app]. unfold hd44780_write_text.
  rewrite write_text_loop_multibyte by exact Hb.
  rewrite utf8_codepoint_app, skipn_cont_len_app, Hdec by exact Hlen.
  reflexivity.
Qed.

(** ** The bus protocol on the recording double *)

Import Protocol.

Lemma lines_after_app (t es : list event) :
  lines_after (t ++ es) = fold_left step es (lines_after t).
Proof. unfold lines_after. apply fold_left_app. Qed.

Lemma keeps_ret {A : Type} (a : A) : keeps (mret a).
Proof. intros w Hw. exact Hw. Qed.

Lemma keeps_bind {A B : Type} (m : M hw A) (k : A -> M hw B) :
  keeps m -> (forall a, keeps (k a)) -> keeps (mbind m k).
Proof.
  intros Hm Hk w Hw. unfold mbind. specialize (Hm w Hw).
  destruct (m w) as [a w1]. apply Hk. exact Hm.
Qed.

Lemma keeps_if {A : Type} (b : bool) (m1 m2 : M hw A) :
  keeps m1 -> keeps m2 -> keeps (if b then m1 else m2).
Proof. destruct b; intros; assumption. Qed.

(** An action that only appends events keeps the discipline when the
    events do, from any good state of the lines. *)
Lemma keeps_events {A : Type} (m : M hw A) :
  (forall w, exists es,
      trace (snd (m w)) = trace w ++ es /\
      forall s, good s -> good (fold_left step es s)) ->
  keeps m.
Proof.
  intros Hm w Hw. destruct (Hm w) as (es & Htr & Hes).
  unfold disciplined. rewrite Htr, lines_after_app. apply Hes. exact Hw.
Qed.

Ltac good_events :=
  let s := fresh "s" in
  intros s; destruct s as [[] [] [] []]; unfold good; cbn;
  intros H; first [discriminate H | reflexivity].

Lemma keeps_log_quiet (e : event) :
  (forall s, good s -> good (step s e)) -> keeps (log e).
Proof.
  intros He. apply keeps_events. intros w. exists [e]. split; [reflexivity |].
  exact He.
Qed.

Lemma keeps_answering_wait : keeps wait_for_busy_flag_clear.
Proof.
  apply keeps_events. intros w. eexists. split; [reflexivity |]. good_events.
Qed.

Section BusDiscipline.

Variable wait : M hw hd44780_ret_e.
Variable map : list character_mapping.
Variables len height width : Z.
Variable iface : hd44780_interface.
Hypothesis keeps_wait : keeps wait.

Let c : hd44780_ctx hw := bus_ctx wait map len height width iface.

Lemma keeps_init_common : keeps (cb_init_common c).
Proof. apply keeps_log_quiet. good_events. Qed.

Lemma keeps_delay (t : Z) : keeps (cb_delay_ms c t).
Proof. apply keeps_log_quiet. good_events. Qed.

Lemma keeps_rs (p : hd44780_pin_state) :
  keeps (cb_set_ctrl_pin_state c HD44780_PIN_RS p).
Proof. apply keeps_log_quiet. good_events. Qed.

Lemma keeps_write_operation (v : Z) : keeps (s_write_operation c v).
Proof.
  apply keeps_events. intros w. exists (pulse_events v). split.
  - cbn. rewrite <- !app_assoc. reflexivity.
  - good_events.
Qed.

Lemma keeps_read_byte : keeps (s_read_byte c).
Proof.
  apply keeps_events. intros w. subst c. destruct iface.
  - eexists. split; [cbn; rewrite <- !app_assoc; reflexivity |]. good_events.
  - eexists. split; [cbn; rewrite <- !app_assoc; reflexivity |]. good_events.
Qed.

Lemma keeps_read_address : keeps (s_read_address c).
Proof.
  unfold s_read_address.
  apply keeps_bind; [apply keeps_rs | intro; apply keeps_read_byte].
Qed.

Lemma keeps_read_data : keeps (s_read_data c).
Proof.
  unfold s_read_data.
  apply keeps_bind; [apply keeps_rs | intro; apply keeps_read_byte].
Qed.

Lemma keeps_is_busy : keeps (hd44780_is_busy c).
Proof. unfold hd44780_is_busy. apply keeps_bind; [apply keeps_read_address | intro; apply keeps_ret]. Qed.

Lemma keeps_write_byte (v : Z) : keeps (s_write_byte c v).
Proof.
  unfold s_write_byte. apply keeps_if; [apply keeps_write_operation |].
  apply keeps_bind; [apply keeps_write_operation | intro].
  apply keeps_write_operation.
Qed.

Lemma keeps_write_instruction (v : Z) : keeps (s_write_instruction c v).
Proof.
  unfold s_write_instruction.
  apply keeps_bind; [exact keeps_wait | intro r].
  apply keeps_if; [| apply keeps_ret].
  apply keeps_bind; [apply keeps_rs | intro].
  apply keeps_bind; [apply keeps_write_byte | intro]. apply keeps_ret.
Qed.

Lemma keeps_write_data (v : Z) : keeps (s_write_data c v).
Proof.
  unfold s_write_data.
  apply keeps_bind; [exact keeps_wait | intro r].
  apply keeps_if; [| apply keeps_ret].
  apply keeps_bind; [apply keeps_rs | intro].
  apply keeps_bind; [apply keeps_write_byte | intro]. apply keeps_ret.
Qed.

Lemma keeps_def_char_loop (pattern : list Z) (n : nat) (i : Z) (r : hd44780_ret_e) :
  keeps (def_char_loop c pattern n i r).
Proof.
  revert i r. induction n as [| n IH]; intros i r; [apply keeps_ret |].
  cbn [def_char_loop]. apply keeps_if; [| apply keeps_ret].
  apply keeps_bind; [apply keeps_write_data | intro; apply IH].
Qed.

Lemma keeps_def_char (index : Z) (pattern : list Z) :
  keeps (hd44780_def_char c index pattern).
Proof.
  unfold hd44780_def_char, s_set_char_addr, s_set_cgram_addr.
  apply keeps_bind; [apply keeps_write_instruction | intro].
  apply keeps_def_char_loop.
Qed.

Lemma keeps_upload_loop (n : nat) (i : Z) (r : hd44780_ret_e) :
  keeps (upload_loop c n i r).
Proof.
  revert i r. induction n as [| n IH]; intros i r; [apply keeps_ret |].
  cbn [upload_loop]. apply keeps_if; [| apply keeps_ret].
  apply keeps_bind; [apply keeps_def_char | intro; apply IH].
Qed.

Lemma keeps_upload : keeps (s_upload_custom_chars c).
Proof.
  unfold s_upload_custom_chars.
  apply keeps_if; [apply keeps_ret | apply keeps_upload_loop].
Qed.

Lemma keeps_write_custom_char (index : Z) : keeps (write_custom_char c index).
Proof.
  unfold write_custom_char, hd44780_disp_char, s_set_ddram_addr.
  apply keeps_bind; [apply keeps_read_address | intro].
  apply keeps_bind; [apply keeps_write_data | intro].
  apply keeps_bind; [apply keeps_write_instruction | intro]. apply keeps_ret.
Qed.

Lemma keeps_write_text_loop (r : hd44780_ret_e) (text : list Z) :
  keeps (write_text_loop c r text).
Proof.
  remember (length text) as n eqn:Hn. revert r text Hn.
  induction n as [n IH] using lt_wf_ind. intros r text Hn w Hw.
  destruct text as [| b t]; [rewrite write_text_loop_equation_1; exact Hw |].
  rewrite write_text_loop_equation_2.
  destruct (ret_eqb HD44780_OK r && negb (b =? 0)); [| exact Hw].
  destruct (b <=? 127).
  - pose proof (keeps_write_data b w Hw) as Hd.
    destruct (s_write_data c b w) as [r1 w1].
    apply (IH (length t)); [subst n; cbn; lia | reflexivity | exact Hd].
  - destruct (s_find_character_by_code c (utf8_codepoint b t) 0) as [r1 idx].
    apply (IH (length (skipn (utf8_cont_len b) t)));
      [subst n; cbn; rewrite length_skipn; lia | reflexivity |].
    destruct (ret_eqb HD44780_OK r1); [| exact Hw].
    apply keeps_write_custom_char. exact Hw.
Qed.

Lemma keeps_set_pos (row column : Z) : keeps (hd44780_set_pos c row column).
Proof.
  unfold hd44780_set_pos, s_set_ddram_addr.
  apply keeps_if; [apply keeps_ret |]. cbv zeta. apply keeps_write_instruction.
Qed.

Lemma keeps_cursor_cfg (cursor_cfg : Z) : keeps (hd44780_cursor_cfg c cursor_cfg).
Proof.
  unfold hd44780_cursor_cfg. cbv zeta.
  repeat (apply keeps_if; [apply keeps_write_instruction |]). apply keeps_ret.
Qed.

Lemma keeps_init_seq_short (n : nat) : keeps (init_seq_short c n).
Proof.
  induction n as [| n IH]; [apply keeps_ret |]. cbn [init_seq_short].
  apply keeps_bind; [apply keeps_write_operation | intro].
  apply keeps_bind; [apply keeps_delay | intro]. exact IH.
Qed.

Lemma keeps_init_configure : keeps (init_configure c).
Proof.
  unfold init_configure, hd44780_display_off, hd44780_clear.
  apply keeps_bind; [apply keeps_write_instruction | intro].
  apply keeps_if; [apply keeps_ret |].
  apply keeps_bind; [apply keeps_write_instruction | intro].
  apply keeps_if; [apply keeps_ret |].
  apply keeps_bind; [apply keeps_write_instruction | intro].
  apply keeps_if; [apply keeps_ret |].
  apply keeps_bind; [apply keeps_cursor_cfg | intro].
  apply keeps_if; [apply keeps_ret |]. apply keeps_upload.
Qed.

Lemma keeps_init : keeps (hd44780_init c).
Proof.
  unfold hd44780_init.
  apply keeps_bind; [apply keeps_init_common | intro].
  apply keeps_bind; [apply keeps_rs | intro].
  apply keeps_bind; [apply keeps_write_operation | intro].
  apply keeps_bind; [apply keeps_delay | intro].
  apply keeps_bind; [apply keeps_init_seq_short | intro].
  apply keeps_if.
  - apply keeps_bind; [apply keeps_write_operation | intro].
    apply keeps_init_configure.
  - apply keeps_bind; [apply keeps_write_operation | intro].
    apply keeps_bind; [apply keeps_delay | intro].
    apply keeps_bind; [apply keeps_write_instruction | intro].
    apply keeps_if; [apply keeps_ret | apply keeps_init_configure].
Qed.

Lemma keeps_wait_loop (timeout_ms : Z) : keeps (s_wait_loop c timeout_ms).
Proof.
  remember (Z.to_nat (timeout_ms + 1)) as n eqn:Hn.
  revert timeout_ms Hn.
  induction n as [n IH] using lt_wf_ind. intros t Hn w Hw.
  rewrite s_wait_loop_step.
  destruct (Z.leb_spec 0 t) as [Ht | Ht]; [| exact Hw].
  pose proof (keeps_is_busy w Hw) as Hb.
  destruct (hd44780_is_busy c w) as [[|] w1]; [| exact Hb].
  apply (IH (Z.to_nat (int_sub_uint t HD44780_TIMEOUT_TICK_MS + 1)));
    [| reflexivity | apply keeps_delay; exact Hb].
  subst n.
  destruct (Z_lt_ge_dec t (2 ^ 31)) as [Hsmall | Hbig].
  - rewrite int_sub_uint_tick by lia. lia.
  - assert (int_sub_uint t HD44780_TIMEOUT_TICK_MS < 2 ^ 31); [| lia].
    unfold int_sub_uint, to_int.
    pose proof (Z.mod_pos_bound (to_uint t - to_uint HD44780_TIMEOUT_TICK_MS)
                  (2 ^ 32) eq_refl).
    destruct (Z.ltb_spec
                ((to_uint t - to_uint HD44780_TIMEOUT_TICK_MS) mod 2 ^ 32)
                (2 ^ 31)); lia.
Qed.

Lemma driver_disciplined_bus_ctx : driver_disciplined c.
Proof.
  repeat split.
  - apply keeps_init.
  - apply keeps_write_instruction.
  - intros text. apply keeps_write_text_loop.
  - apply keeps_set_pos.
  - apply keeps_cursor_cfg.
  - apply keeps_write_instruction.
  - apply keeps_def_char.
  - apply keeps_write_data.
  - apply keeps_is_busy.
  - apply keeps_read_address.
  - apply keeps_read_data.
  - apply keeps_wait_loop.
Qed.

End BusDiscipline.

(** X13: the driver keeps the bus protocol.  On the recording double,
    with the answering busy wait as with the polling one, every entry
    point started with sound lines and E low ends the same way: RS, RW
    and the bus direction change only while E is low, the bus is never
    an output while RW is high, each bus write is made with the bus as
    output, RW low and E high, each bus read with the bus as input, RW
    high and E high. *)
Theorem driver_keeps_bus_discipline (map : list character_mapping)
    (len height width : Z) (iface : hd44780_interface) :
  driver_disciplined (Mock.ctx map len height width iface) /\
  driver_disciplined (Mock.polling_ctx map len height width iface).
Proof.
  split.
  - apply (driver_disciplined_bus_ctx wait_for_busy_flag_clear map len height
             width iface keeps_answering_wait).
  - apply (driver_disciplined_bus_ctx
             (s_wait_till_busy (Mock.ctx map len height width iface))
             map len height width iface).
    apply (keeps_wait_loop wait_for_busy_flag_clear map len height width iface).
Qed.

(** ** The polling wait on the recording double *)

Lemma delay_total_app (t1 t2 : list event) :
  delay_total (t1 ++ t2) = delay_total t1 + delay_total t2.
Proof.
  induction t1 as [| e t1 IH]; [reflexivity |].
  cbn [app delay_total fold_right]. fold (delay_total (t1 ++ t2)).
  fold (delay_total t1). rewrite IH. destruct e; lia.
Qed.

Lemma polls_app (t1 t2 : list event) :
  polls (t1 ++ t2) = (polls t1 + polls t2)%nat.
Proof. unfold polls. rewrite filter_app, length_app. reflexivity. Qed.

Section PollingWait.

Variable wait : M hw hd44780_ret_e.
Variable map : list character_mapping.
Variables len height width : Z.
Variable iface : hd44780_interface.

Let c : hd44780_ctx hw := bus_ctx wait map len height width iface.

Lemma is_busy_events w :
  exists es,
    trace (snd (hd44780_is_busy c w)) = trace w ++ es /\
    delay_total es = 0 /\ polls es = 1%nat /\
    busy_in (snd (hd44780_is_busy c w)) = busy_in w.
Proof.
  subst c. destruct iface.
  - eexists. split; [cbn; rewrite <- !app_assoc; reflexivity |].
    repeat split.
  - eexists. split; [cbn; rewrite <- !app_assoc; reflexivity |].
    repeat split.
Qed.

Lemma wait_loop_bounded (n : nat) (t : Z) w :
  Z.of_nat n = t + 1 -> t < 2 ^ 31 ->
  delay_total (trace (snd (s_wait_loop c t w))) <= delay_total (trace w) + t + 1 /\
  (polls (trace (snd (s_wait_loop c t w))) <= polls (trace w) + n)%nat /\
  busy_in (snd (s_wait_loop c t w)) = busy_in w.
Proof.
  revert t w. induction n as [| n IH]; intros t w Hn Ht;
    rewrite s_wait_loop_step.
  - destruct (Z.leb_spec 0 t) as [H | _]; [lia |]. cbn [snd].
    repeat split; lia.
  - destruct (Z.leb_spec 0 t) as [_ | H]; [| lia].
    destruct (is_busy_events w) as (es & Htr & Hd & Hp & Hq).
    destruct (hd44780_is_busy c w) as [[|] w1]; cbn [snd] in *.
    + rewrite int_sub_uint_tick by lia.
      destruct (IH (t - 1)
                  (snd (cb_delay_ms c (u8 HD44780_TIMEOUT_TICK_MS) w1))
                  ltac:(lia) ltac:(lia)) as (IHd & IHp & IHq).
      change (trace (snd (cb_delay_ms c (u8 HD44780_TIMEOUT_TICK_MS) w1)))
        with (trace w1 ++ [DelayMs 1]) in IHd, IHp.
      change (busy_in (snd (cb_delay_ms c (u8 HD44780_TIMEOUT_TICK_MS) w1)))
        with (busy_in w1) in IHq.
      rewrite Htr in IHd, IHp.
      rewrite !delay_total_app in IHd. rewrite !polls_app in IHp.
      rewrite Hd in IHd. rewrite Hp in IHp.
      change (delay_total [DelayMs 1]) with 1 in IHd.
      change (polls [DelayMs 1]) with 0%nat in IHp.
      repeat split; [lia | lia | congruence].
    + rewrite Htr, delay_total_app, polls_app, Hd, Hp.
      repeat split; [lia | lia | exact Hq].
Qed.

End PollingWait.

(** X14: the polling wait is bounded.  Whatever the display answers,
    [s_wait_till_busy] returns [HD44780_OK] or [HD44780_TIMEOUT] after
    at most 101 polls of the busy flag and at most 101 ms of delay,
    and it never consults the busy-wait callback of its context. *)
Theorem wait_till_busy_bounded (wait : M hw hd44780_ret_e)
    (map : list character_mapping) (len height width : Z)
    (iface : hd44780_interface) (w : hw) :
  ok_or_timeout
    (fst (s_wait_till_busy (bus_ctx wait map len height width iface) w)) /\
  delay_total
    (trace (snd (s_wait_till_busy (bus_ctx wait map len height width iface) w)))
    <= delay_total (trace w) + 101 /\
  (polls
     (trace (snd (s_wait_till_busy (bus_ctx wait map len height width iface) w)))
   <= polls (trace w) + 101)%nat /\
  busy_in (snd (s_wait_till_busy (bus_ctx wait map len height width iface) w))
  = busy_in w.
Proof.
  split; [apply s_wait_loop_status |].
  destruct (wait_loop_bounded wait map len height width iface 101 100 w
              eq_refl eq_refl) as (Hd & Hp & Hq).
  unfold s_wait_till_busy, HD44780_TIMEOUT_MS.
  repeat split; [lia | exact Hp | exact Hq].
Qed.

(** ** Reading on the recording double *)

Lemma testbit_7_lor_low (a b : Z) :
  0 <= b < 16 -> Z.testbit (Z.lor a b) 7 = Z.testbit a 7.
Proof.
  intros Hb. rewrite Z.lor_spec, (testbit_small b 7 4) by (cbn; lia).
  apply orb_false_r.
Qed.

Lemma u8_shiftr_4_small (x : Z) : 0 <= u8 (Z.shiftr (u8 x) 4) < 16.
Proof.
  pose proof (u8_range x) as Hx.
  rewrite Z.shiftr_div_pow2 by lia. change (2 ^ 4) with 16.
  assert (0 <= u8 x / 16 < 16)
    by (split; [apply Z.div_pos; lia | apply Z.div_lt_upper_bound; lia]).
  rewrite u8_small by lia. assumption.
Qed.

(** X15: on either bus width the busy flag is bit 7 of the first bus
    read of the poll; in 4-bit mode the second read, and with it the
    low nibble that [s_read_byte] lets through, cannot change it. *)
Theorem is_busy_first_read_bit7 (wait : M hw hd44780_ret_e)
    (map : list character_mapping) (len height width : Z)
    (iface : hd44780_interface) (t : list event) (r1 r2 : Z)
    (reads : list Z) (waits : list hd44780_ret_e) :
  fst (hd44780_is_busy (bus_ctx wait map len height width iface)
         {| trace := t; bus_in := r1 :: r2 :: reads; busy_in := waits |})
  = Z.testbit r1 7.
Proof.
  rewrite hd44780_is_busy_bit7.
  assert (Hr1 : Z.testbit (u8 r1) 7 = Z.testbit r1 7).
  { unfold u8. change 256 with (2 ^ 8). apply Z.mod_pow2_bits_low. lia. }
  destruct iface.
  - change (fst (s_read_address
                   (bus_ctx wait map len height width INTERFACE_4BIT)
                   {| trace := t; bus_in := r1 :: r2 :: reads;
                      busy_in := waits |}))
      with (Z.lor (u8 r1) (u8 (Z.shiftr (u8 r2) 4))).
    rewrite testbit_7_lor_low by apply u8_shiftr_4_small. exact Hr1.
  - change (fst (s_read_address
                   (bus_ctx wait map len height width INTERFACE_8BIT)
                   {| trace := t; bus_in := r1 :: r2 :: reads;
                      busy_in := waits |}))
      with (u8 r1).
    exact Hr1.
Qed.

(** X16: a byte sent on the 4-bit bus comes back.  When the display
    returns on D7..D4 the two nibbles that [s_write_byte] pulsed, in the
    same order, [s_read_byte] reassembles the byte that was written. *)
Theorem write_read_4bit_round_trip (wait : M hw hd44780_ret_e)
    (map : list character_mapping) (len height width : Z)
    (t : list event) (waits : list hd44780_ret_e) (b : Z) :
  0 <= b < 256 ->
  fst (s_read_byte (bus_ctx wait map len height width INTERFACE_4BIT)
         {| trace := t;
            bus_in :=
              List.map (fun v => Z.land v 0xF0)
                (bus_writes
                   (trace (snd (s_write_byte
                                  (bus_ctx wait map len height width
                                     INTERFACE_4BIT) b (power_on [] [])))));
            busy_in := waits |})
  = b.
Proof.
  intros Hb. apply Z.eqb_eq.
  apply (range_forallb
           (fun x =>
              fst (s_read_byte (bus_ctx wait map len height width INTERFACE_4BIT)
                     {| trace := t;
                        bus_in :=
                          List.map (fun v => Z.land v 0xF0)
                            (bus_writes
                               (trace (snd (s_write_byte
                                              (bus_ctx wait map len height width
                                                 INTERFACE_4BIT) x
                                              (power_on [] [])))));
                        busy_in := waits |})
              =? x)
           256); [vm_compute; reflexivity | exact Hb].
Qed.

(** ** A display that is never busy *)

(** X17: when the busy wait always reports [HD44780_OK], nothing else
    can fail.  Every framed function returns [HD44780_OK];
    [hd44780_set_pos] does inside the display, [hd44780_cursor_cfg]
    for the three cursor settings, [hd44780_init] with a map length of
    at most 8; and [hd44780_write_text] returns [HD44780_OK] or
    [HD44780_CHAR_NOT_FOUND]. *)
Theorem never_busy_succeeds {W : Type} (c : hd44780_ctx W) :
  (forall w, fst (cb_wait_for_busy_flag_clear c w) = HD44780_OK) ->
  (forall w, fst (hd44780_clear c w) = HD44780_OK) /\
  (forall w, fst (hd44780_display_off c w) = HD44780_OK) /\
  (forall index pattern w,
     fst (hd44780_def_char c index pattern w) = HD44780_OK) /\
  (forall index w, fst (hd44780_disp_char c index w) = HD44780_OK) /\
  (forall row column w,
     row < number_of_lines c -> column < column_width c ->
     fst (hd44780_set_pos c row column w) = HD44780_OK) /\
  (forall cursor_cfg w,
     cursor_cfg = CURSOR_OFF \/ cursor_cfg = CURSOR_ON \/
     cursor_cfg = CURSOR_BLINK ->
     fst (hd44780_cursor_cfg c cursor_cfg w) = HD44780_OK) /\
  (forall text w,
     fst (hd44780_write_text c text w) = HD44780_OK \/
     fst (hd44780_write_text c text w) = HD44780_CHAR_NOT_FOUND) /\
  (forall w,
     custom_chars_map_len c <= 8 -> fst (hd44780_init c w) = HD44780_OK).
Proof.
  intros Hc.
  pose (P := fun r : hd44780_ret_e => r = HD44780_OK).
  split; [intros w; apply (s_write_instruction_in c P Hc) |].
  split; [intros w; apply (s_write_instruction_in c P Hc) |].
  split; [intros index pattern w; apply (hd44780_def_char_in c P Hc) |].
  split; [intros index w; apply (s_write_data_in c P Hc) |].
  split.
  { intros row column w Hrow Hcol. unfold hd44780_set_pos.
    destruct (Z.leb_spec (column_width c) column) as [H | _]; [lia |].
    destruct (Z.leb_spec (number_of_lines c) row) as [H | _]; [lia |].
    cbn [orb]. apply (s_write_instruction_in c P Hc). }
  split.
  { intros cursor_cfg w [-> | [-> | ->]];
      exact (s_write_instruction_in c P Hc _ w). }
  split.
  { intros text w. unfold hd44780_write_text.
    apply (write_text_loop_in c
             (fun r => r = HD44780_OK \/ r = HD44780_CHAR_NOT_FOUND));
      [intros w'; left; apply Hc | left | right | left]; reflexivity. }
  intros w Hlen. rewrite hd44780_init_split.
  assert (Hpre : fst (init_before_upload c w) = HD44780_OK).
  { unfold init_before_upload, mbind.
    repeat match goal with
           | |- context [let (_, _) := ?m ?w0 in _] =>
               lazymatch m with
               | framed_continue _ _ => fail
               | _ => destruct (m w0) as [[] ?]
               end
           end.
    apply (framed_continue_invariant P); [reflexivity |].
    apply Forall_map, Forall_forall. intros op _ w'.
    apply (s_write_instruction_in c P Hc). }
  destruct (init_before_upload c w) as [r w1]. cbn [fst] in Hpre. subst r.
  cbn [ret_eqb]. unfold s_upload_custom_chars.
  destruct (Z.ltb_spec 8 (custom_chars_map_len c)) as [H | _]; [lia |].
  apply (upload_loop_in c P Hc). reflexivity.
Qed.

(** ** Instances on the recording double *)

Lemma cursor_cfg_cases_witness :
  hd44780_cursor_cfg (lcd INTERFACE_8BIT) 7 (power_on [] [])
  = (HD44780_INV_ARG, power_on [] []).
Proof.
  apply (proj2 (proj2 (proj2
           (cursor_cfg_cases (lcd INTERFACE_8BIT) 7 (power_on [] [])))));
    discriminate.
Defined.

Lemma write_text_ascii_witness :
  Forall ascii_byte [0x48; 0x69] /\
  hd44780_write_text (lcd INTERFACE_8BIT) [0x48; 0x69] (power_on [] []) =
  framed_continue HD44780_OK
    (List.map (s_write_data (lcd INTERFACE_8BIT)) [0x48; 0x69])
    (power_on [] []).
Proof.
  assert (H : Forall ascii_byte [0x48; 0x69])
    by (repeat constructor; unfold ascii_byte; lia).
  split; [exact H |].
  exact (write_text_ascii (lcd INTERFACE_8BIT) [0x48; 0x69] (power_on [] []) H).
Defined.

Lemma write_text_stops_at_terminator_witness :
  Forall complete_char [[0x48]; [0xC3; 0xA8]] /\
  hd44780_write_text (lcd INTERFACE_8BIT)
    (concat [[0x48]; [0xC3; 0xA8]] ++ 0 :: [0x42]) (power_on [0x05] []) =
  hd44780_write_text (lcd INTERFACE_8BIT)
    (concat [[0x48]; [0xC3; 0xA8]]) (power_on [0x05] []).
Proof.
  assert (H : Forall complete_char [[0x48]; [0xC3; 0xA8]]).
  { repeat constructor. }
  split; [exact H |].
  exact (write_text_stops_at_terminator (lcd INTERFACE_8BIT)
           [[0x48]; [0xC3; 0xA8]] [0x42] (power_on [0x05] []) H).
Defined.

Lemma write_text_truncated_sequence_witness :
  0x7f < 0xC3 /\
  (length (@nil Z) < utf8_cont_len 0xC3)%nat /\
  hd44780_write_text (lcd INTERFACE_8BIT) (0xC3 :: [] ++ 0 :: [0x42])
    (power_on [] []) =
  let (r, custom_char_index) :=
    s_find_character_by_code (lcd INTERFACE_8BIT)
      (utf8_codepoint 0xC3 ([] ++ 0 :: [0x42])) 0 in
  write_text_loop (lcd INTERFACE_8BIT) r
    (skipn (utf8_cont_len 0xC3 - length (@nil Z) - 1) [0x42])
    (if ret_eqb HD44780_OK r
     then snd (write_custom_char (lcd INTERFACE_8BIT) custom_char_index
                 (power_on [] []))
     else power_on [] []).
Proof.
  assert (H1 : 0x7f < 0xC3) by lia.
  assert (H2 : (length (@nil Z) < utf8_cont_len 0xC3)%nat)
    by (vm_compute; lia).
  split; [exact H1 |]. split; [exact H2 |].
  exact (write_text_truncated_sequence (lcd INTERFACE_8BIT) 0xC3 [] [0x42]
           (power_on [] []) H1 H2).
Defined.

Lemma find_character_first_match_witness :
  0 <= custom_chars_map_len (lcd INTERFACE_8BIT) <= 255 /\
  (let code_at k :=
     utf_8_code (nth (Z.to_nat k) (custom_chars_map (lcd INTERFACE_8BIT))
                   {| utf_8_code := 0; character_bitmap := [] |}) in
   let (r, j) := s_find_character_by_code (lcd INTERFACE_8BIT) 0x2191 0 in
   (r = HD44780_OK /\ 0 <= j < custom_chars_map_len (lcd INTERFACE_8BIT) /\
    code_at j = 0x2191 /\
    (forall k, 0 <= k < j -> code_at k <> 0x2191)) \/
   (r = HD44780_CHAR_NOT_FOUND /\ j = 0 /\
    (forall k, 0 <= k < custom_chars_map_len (lcd INTERFACE_8BIT) ->
               code_at k <> 0x2191))).
Proof.
  assert (H : 0 <= custom_chars_map_len (lcd INTERFACE_8BIT) <= 255)
    by (cbn; lia).
  split; [exact H |].
  exact (find_character_first_match (lcd INTERFACE_8BIT) 0x2191 0 H).
Defined.

Lemma upload_custom_chars_in_order_witness :
  0 <= custom_chars_map_len (lcd INTERFACE_8BIT) <= 8 /\
  s_upload_custom_chars (lcd INTERFACE_8BIT) (power_on [] []) =
    framed_continue HD44780_OK
      (glyph_uploads (lcd INTERFACE_8BIT) 0
         (Z.to_nat (custom_chars_map_len (lcd INTERFACE_8BIT))))
      (power_on [] []).
Proof.
  assert (H : 0 <= custom_chars_map_len (lcd INTERFACE_8BIT) <= 8)
    by (cbn; lia).
  split; [exact H |].
  exact (proj1 (upload_custom_chars_in_order (lcd INTERFACE_8BIT)
                  (power_on [] []) H)).
Defined.

Lemma public_statuses_witness :
  wait_contract (polling_ctx mappings 3 4 20 INTERFACE_4BIT) /\
  ok_timeout_or HD44780_CUSTOM_CHARS_INV
    (fst (hd44780_init (polling_ctx mappings 3 4 20 INTERFACE_4BIT)
            (power_on [] []))) /\
  ok_timeout_or HD44780_CHAR_NOT_FOUND
    (fst (hd44780_write_text (polling_ctx mappings 3 4 20 INTERFACE_4BIT)
            [0x48; 0xC3; 0xA9] (power_on [] []))).
Proof.
  assert (H : wait_contract (polling_ctx mappings 3 4 20 INTERFACE_4BIT))
    by exact (polling_wait_contract (Mock.ctx mappings 3 4 20 INTERFACE_4BIT)).
  split; [exact H |].
  pose proof (public_statuses (polling_ctx mappings 3 4 20 INTERFACE_4BIT) H)
    as (_ & _ & _ & _ & _ & _ & Htext & Hinit).
  split; [apply Hinit | apply Htext].
Defined.

Lemma set_pos_addresses_distinct_witness :
  number_of_lines (lcd INTERFACE_8BIT) <= 4 /\
  column_width (lcd INTERFACE_8BIT) <= 32 /\
  0 <= 1 < number_of_lines (lcd INTERFACE_8BIT) /\
  0 <= 5 < column_width (lcd INTERFACE_8BIT) /\
  0 <= 2 < number_of_lines (lcd INTERFACE_8BIT) /\
  0 <= 3 < column_width (lcd INTERFACE_8BIT) /\
  hd44780_set_pos (lcd INTERFACE_8BIT) 1 5 (power_on [] []) =
  s_write_instruction (lcd INTERFACE_8BIT)
    (0x80 + spec_row_offset (lcd INTERFACE_8BIT) 1 + 5) (power_on [] []).
Proof.
  assert (H1 : number_of_lines (lcd INTERFACE_8BIT) <= 4) by (cbn; lia).
  assert (H2 : column_width (lcd INTERFACE_8BIT) <= 32) by (cbn; lia).
  assert (H3 : 0 <= 1 < number_of_lines (lcd INTERFACE_8BIT)) by (cbn; lia).
  assert (H4 : 0 <= 5 < column_width (lcd INTERFACE_8BIT)) by (cbn; lia).
  assert (H5 : 0 <= 2 < number_of_lines (lcd INTERFACE_8BIT)) by (cbn; lia).
  assert (H6 : 0 <= 3 < column_width (lcd INTERFACE_8BIT)) by (cbn; lia).
  repeat (split; [assumption |]).
  exact (proj1 (set_pos_addresses_distinct (lcd INTERFACE_8BIT) 1 5 2 3
                  H1 H2 H3 H4 H5 H6) (power_on [] [])).
Defined.

Lemma set_pos_rows_above_3_alias_row_0_witness :
  3 < 4 < number_of_lines (Mock.ctx mappings 3 5 20 INTERFACE_8BIT) /\
  hd44780_set_pos (Mock.ctx mappings 3 5 20 INTERFACE_8BIT) 4 2 (power_on [] []) =
  hd44780_set_pos (Mock.ctx mappings 3 5 20 INTERFACE_8BIT) 0 2 (power_on [] []).
Proof.
  assert (H : 3 < 4 < number_of_lines (Mock.ctx mappings 3 5 20 INTERFACE_8BIT))
    by (cbn; lia).
  split; [exact H |].
  exact (set_pos_rows_above_3_alias_row_0
           (Mock.ctx mappings 3 5 20 INTERFACE_8BIT) 4 2 (power_on [] []) H).
Defined.

Lemma def_char_index_aliases_witness :
  0 <= 1 < 8 /\
  hd44780_def_char (lcd INTERFACE_8BIT) (1 + 8) [0x1F; 0x11] (power_on [] []) =
  hd44780_def_char (lcd INTERFACE_8BIT) 1 [0x1F; 0x11] (power_on [] []).
Proof.
  assert (H : 0 <= 1 < 8) by lia.
  split; [exact H |].
  exact (proj2 (def_char_index_aliases (lcd INTERFACE_8BIT) 1 [0x1F; 0x11]
                  (power_on [] [])) H).
Defined.

Lemma write_text_decodes_utf8_witness :
  0x80 <= 0x2191 < 0x110000 /\
  hd44780_write_text (lcd INTERFACE_8BIT) (utf8_encode 0x2191 ++ [0x42])
    (power_on [0x05] []) =
  let (r, custom_char_index) :=
    s_find_character_by_code (lcd INTERFACE_8BIT) 0x2191 0 in
  write_text_loop (lcd INTERFACE_8BIT) r [0x42]
    (if ret_eqb HD44780_OK r
     then snd (write_custom_char (lcd INTERFACE_8BIT) custom_char_index
                 (power_on [0x05] []))
     else power_on [0x05] []).
Proof.
  assert (H : 0x80 <= 0x2191 < 0x110000) by lia.
  split; [exact H |].
  exact (write_text_decodes_utf8 (lcd INTERFACE_8BIT) 0x2191 [0x42]
           (power_on [0x05] []) H).
Defined.

Lemma write_read_4bit_round_trip_witness :
  0 <= 0x4F < 256 /\
  fst (s_read_byte (lcd INTERFACE_4BIT)
         {| trace := [];
            bus_in :=
              List.map (fun v => Z.land v 0xF0)
                (bus_writes
                   (trace (snd (s_write_byte (lcd INTERFACE_4BIT) 0x4F
                                  (power_on [] [])))));
            busy_in := [] |})
  = 0x4F.
Proof.
  assert (H : 0 <= 0x4F < 256) by lia.
  split; [exact H |].
  exact (write_read_4bit_round_trip Mock.wait_for_busy_flag_clear mappings
           3 4 20 [] [] 0x4F H).
Defined.

Lemma driver_keeps_bus_discipline_witness :
  disciplined (power_on [] []) /\
  disciplined (snd (hd44780_init (lcd INTERFACE_4BIT) (power_on [] []))).
Proof.
  assert (H : disciplined (power_on [] [])) by reflexivity.
  split; [exact H |].
  exact (proj1 (proj1 (driver_keeps_bus_discipline mappings 3 4 20
                         INTERFACE_4BIT)) (power_on [] []) H).
Defined.

Lemma never_busy_succeeds_witness :
  (forall w,
     fst (cb_wait_for_busy_flag_clear
            (bus_ctx (mret HD44780_OK) mappings 3 4 20 INTERFACE_4BIT) w)
     = HD44780_OK) /\
  custom_chars_map_len
    (bus_ctx (mret HD44780_OK) mappings 3 4 20 INTERFACE_4BIT) <= 8 /\
  fst (hd44780_init (bus_ctx (mret HD44780_OK) mappings 3 4 20 INTERFACE_4BIT)
         (power_on [] []))
  = HD44780_OK.
Proof.
  assert (H : forall w,
             fst (cb_wait_for_busy_flag_clear
                    (bus_ctx (mret HD44780_OK) mappings 3 4 20 INTERFACE_4BIT) w)
             = HD44780_OK) by (intros w; reflexivity).
  assert (Hlen : custom_chars_map_len
                   (bus_ctx (mret HD44780_OK) mappings 3 4 20 INTERFACE_4BIT) <= 8)
    by (cbn; lia).
  split; [exact H |]. split; [exact Hlen |].
  pose proof (never_busy_succeeds
                (bus_ctx (mret HD44780_OK) mappings 3 4 20 INTERFACE_4BIT) H)
    as (_ & _ & _ & _ & _ & _ & _ & Hinit).
  exact (Hinit (power_on [] []) Hlen).
Defined.
